(** * Resume builder bot: a shallow embedding of [resume_bot.py]

    The development follows the layout of the Python module:
    - [PyStr]: the [str] methods the bot calls ([split], [strip], [lower],
      [startswith], [in], [join], [replace], slicing);
    - [Py]: dictionary values, exceptions and the result monad;
    - the derivation functions [generate_summary], [enhance_skills] (value
      level and on a heap of list objects) and [get_job_recommendations];
    - the two renderers, as the sequence of calls they make on the [FPDF]
      and [Document] objects;
    - the dialogue handlers and the dispatcher over an [FSMContext].

    Characters.  A Python [str] is a sequence of code points.  Here a string
    is a [string] of 8-bit characters, each read as the code point of the same
    number (Latin-1); text outside that range is not covered.  Literals of the
    program that contain other characters are carried as their UTF-8 bytes:
    the program only ever concatenates them. *)

From Stdlib Require Import Ascii String.
From stdpp Require Import base decidable option list gmap strings fin_maps.

#[local] Open Scope nat_scope.

(** ** Python strings *)

Module PyStr.

Definition nl : string := String (ascii_of_nat 10) "".

Definition code (c : ascii) : nat := nat_of_ascii c.

(** [str.isspace] on one code point below 256: the ASCII table of
    CPython ([\t\n\v\f\r], [\x1c]-[\x1f], space), NEL and NBSP. *)
Definition is_space (c : ascii) : bool :=
  let n := code c in
  ((9 <=? n) && (n <=? 13)) || ((28 <=? n) && (n <=? 32))
  || (n =? 133) || (n =? 160).

Definition lower_char (c : ascii) : ascii :=
  let n := code c in
  if ((65 <=? n) && (n <=? 90))
     || ((192 <=? n) && (n <=? 222) && negb (n =? 215))
  then ascii_of_nat (n + 32) else c.

(** Upper case of an ASCII letter; used on the program's own identifiers
    and headings only. *)
Definition upper_char (c : ascii) : ascii :=
  let n := code c in
  if (97 <=? n) && (n <=? 122) then ascii_of_nat (n - 32) else c.

Fixpoint map_chars (f : ascii -> ascii) (s : string) : string :=
  match s with
  | EmptyString => EmptyString
  | String c s' => String (f c) (map_chars f s')
  end.

(** [s.lower()] *)
Definition lower : string -> string := map_chars lower_char.

(** [s.upper()], ASCII letters *)
Definition upper : string -> string := map_chars upper_char.

(** [s.capitalize()] *)
Definition capitalize (s : string) : string :=
  match s with
  | EmptyString => EmptyString
  | String c s' => String (upper_char c) (lower s')
  end.

(** [s.replace(a, b)] for one-character [a] and [b] *)
Definition replace (a b : ascii) : string -> string :=
  map_chars (fun c => if Ascii.eqb c a then b else c).

(** [s.split(sep)] for a one-character separator: never empty *)
Fixpoint split (sep : ascii) (s : string) : list string :=
  match s with
  | EmptyString => [EmptyString]
  | String c s' =>
      if Ascii.eqb c sep then EmptyString :: split sep s'
      else match split sep s' with
           | h :: t => String c h :: t
           | [] => [String c EmptyString]
           end
  end.

(** [s.split(sep, maxsplit)] *)
Fixpoint splitn (sep : ascii) (maxsplit : nat) (s : string) : list string :=
  match s with
  | EmptyString => [EmptyString]
  | String c s' =>
      if Ascii.eqb c sep then
        match maxsplit with
        | 0 => [s]
        | S m => EmptyString :: splitn sep m s'
        end
      else match splitn sep maxsplit s' with
           | h :: t => String c h :: t
           | [] => [String c EmptyString]
           end
  end.

(** [s.lstrip()], [s.rstrip()], [s.strip()] *)
Fixpoint lstrip (s : string) : string :=
  match s with
  | EmptyString => EmptyString
  | String c s' => if is_space c then lstrip s' else s
  end.

Fixpoint rstrip (s : string) : string :=
  match s with
  | EmptyString => EmptyString
  | String c s' =>
      match rstrip s' with
      | EmptyString => if is_space c then EmptyString else String c EmptyString
      | r => String c r
      end
  end.

Definition strip (s : string) : string := rstrip (lstrip s).

(** [s.startswith(p)] *)
Fixpoint startswith (p s : string) : bool :=
  match p with
  | EmptyString => true
  | String a p' =>
      match s with
      | String b s' => Ascii.eqb a b && startswith p' s'
      | EmptyString => false
      end
  end.

(** [sub in s] *)
Fixpoint contains (sub s : string) : bool :=
  startswith sub s ||
  match s with
  | EmptyString => false
  | String _ s' => contains sub s'
  end.

(** [sep.join(l)] *)
Definition join (sep : string) (l : list string) : string :=
  String.concat sep l.

(** Iterating over a [str] yields its characters as strings. *)
Fixpoint chars (s : string) : list string :=
  match s with
  | EmptyString => []
  | String c s' => String c EmptyString :: chars s'
  end.

(** [s[:n]] *)
Fixpoint take_chars (n : nat) (s : string) : string :=
  match n, s with
  | S m, String c s' => String c (take_chars m s')
  | _, _ => EmptyString
  end.

Definition first_char (s : string) : option ascii :=
  match s with String c _ => Some c | EmptyString => None end.

Fixpoint last_char (s : string) : option ascii :=
  match s with
  | EmptyString => None
  | String c EmptyString => Some c
  | String _ s' => last_char s'
  end.

(** No white space at either end: what [strip] establishes. *)
Definition trimmed (s : string) : bool :=
  match first_char s, last_char s with
  | Some a, Some b => negb (is_space a) && negb (is_space b)
  | _, _ => true
  end.

Fixpoint count_char (a : ascii) (s : string) : nat :=
  match s with
  | EmptyString => 0
  | String c s' => (if Ascii.eqb c a then 1 else 0) + count_char a s'
  end.

End PyStr.


(** ** Python values, exceptions, results *)

Module Py.

(** What the session dictionary holds: [None] (a message without text),
    a [str], or a list of [str]. *)
Inductive value :=
| VNone
| VStr (s : string)
| VList (l : list string).

#[global] Instance value_eq_dec : EqDecision value.
Proof. solve_decision. Defined.

Inductive exn :=
| KeyError (key : string)
| AttributeError (msg : string)
| TypeError (msg : string)
| ValueError (msg : string)
| IndexError (msg : string)
| OtherError (msg : string).

#[global] Instance exn_eq_dec : EqDecision exn.
Proof. solve_decision. Defined.

(** [str(e)] *)
Definition exn_str (e : exn) : string :=
  match e with
  | KeyError k => "'" +:+ k +:+ "'"
  | AttributeError m | TypeError m | ValueError m | IndexError m | OtherError m => m
  end.

(** A computation that returns or raises. *)
Definition res (A : Type) : Type := exn + A.

Definition ret {A} (a : A) : res A := inr a.
Definition raise {A} (e : exn) : res A := inl e.
Definition bind {A B} (m : res A) (k : A -> res B) : res B :=
  match m with
  | inl e => inl e
  | inr a => k a
  end.

Definition type_name (v : value) : string :=
  match v with
  | VNone => "NoneType"
  | VStr _ => "str"
  | VList _ => "list"
  end.

Definition no_attribute {A} (v : value) (attr : string) : res A :=
  raise (AttributeError
           ("'" +:+ type_name v +:+ "' object has no attribute '" +:+ attr +:+ "'")).

(** [d[k]] *)
Definition getitem (d : gmap string value) (k : string) : res value :=
  match d !! k with
  | Some v => ret v
  | None => raise (KeyError k)
  end.

(** [bool(v)] *)
Definition truthy (v : value) : bool :=
  match v with
  | VNone => false
  | VStr s => negb (String.eqb s "")
  | VList l => negb (bool_decide (l = []))
  end.

(** [for x in v]: the items, when [v] can be iterated. *)
Definition iter (v : value) : res (list string) :=
  match v with
  | VNone => raise (TypeError "'NoneType' object is not iterable")
  | VStr s => ret (PyStr.chars s)
  | VList l => ret l
  end.

(** [v[:n]] *)
Definition slice_to (n : nat) (v : value) : res value :=
  match v with
  | VNone => raise (TypeError "'NoneType' object is not subscriptable")
  | VStr s => ret (VStr (PyStr.take_chars n s))
  | VList l => ret (VList (take n l))
  end.

(** [sep.join(v)] *)
Definition join (sep : string) (v : value) : res string :=
  match v with
  | VNone => raise (TypeError "can only join an iterable")
  | VStr s => ret (PyStr.join sep (PyStr.chars s))
  | VList l => ret (PyStr.join sep l)
  end.

(** The text an f-string puts for [{v}].  For a list this is [repr],
    written here for items without quotes, backslashes or control
    characters; no handler stores a list under a key that is formatted. *)
Definition format_value (v : value) : string :=
  match v with
  | VNone => "None"
  | VStr s => s
  | VList l => "[" +:+ PyStr.join ", " ((fun s => "'" +:+ s +:+ "'") <$> l) +:+ "]"
  end.

(** A text argument of [cell], [multi_cell], [add_heading] or
    [add_paragraph].  The handlers only ever pass a [str]; what the libraries
    do with another value is not modelled beyond an exception. *)
Definition text_arg (v : value) : res string :=
  match v with
  | VStr s => ret s
  | _ => raise (TypeError ("expected str, got " +:+ type_name v))
  end.

End Py.

Import Py.

Notation "x <- m ;; k" := (Py.bind m (fun x => k))
  (at level 100, m at next level, right associativity,
   format "'[v' x  <-  m ;;  '/' k ']'").

(** ** Derivation functions *)

(** [generate_summary(resume_data)] *)
Definition generate_summary (resume_data : gmap string value) : res string :=
  name <- getitem resume_data "name";;
  all_skills <- getitem resume_data "skills";;
  skills <- slice_to 3 all_skills;;
  joined <- Py.join ", " skills;;
  ret (format_value name +:+ " is a dedicated professional with expertise in "
       +:+ joined
       +:+ ". Seeking new opportunities to apply these skills in a challenging environment.").

Definition common_skills : list string :=
  ["Problem Solving"; "Communication"; "Teamwork"; "Time Management";
   "Leadership"; "Critical Thinking"; "Adaptability"; "Project Management"].

(** One turn of the loop of [enhance_skills]:
    [if skill not in enhanced and len(enhanced) < 8: enhanced.append(skill)]. *)
Definition enhance_step (enhanced : list string) (skill : string) : list string :=
  if bool_decide (skill ∉ enhanced) && (length enhanced <? 8)
  then enhanced ++ [skill]
  else enhanced.

(** [enhance_skills(skills)] on the contents of the list. *)
Definition enhance_skills (skills : list string) : list string :=
  let enhanced := skills in
  if length enhanced <? 8
  then foldl enhance_step enhanced common_skills
  else enhanced.

(** [enhance_skills(v)] for a dictionary value: [v.copy()] needs a list. *)
Definition call_enhance_skills (v : value) : res (list string) :=
  match v with
  | VList l => ret (enhance_skills l)
  | _ => no_attribute v "copy"
  end.

(** *** [enhance_skills] on list objects

    Python lists are objects: [skills.copy()] allocates a new one and
    [enhanced.append] updates it in place.  The heap maps the address of a
    list object to its contents. *)

Module Heap.

Definition t := gmap nat (list string).

(** [l.copy()]: a new object with the same items. *)
Definition copy (p : nat) (h : gmap nat (list string))
  : option (nat * gmap nat (list string)) :=
  l ← h !! p;
  let q := fresh (dom h) in
  Some (q, <[q := l]> h).

(** [l.append(x)] *)
Definition append (p : nat) (x : string) (h : gmap nat (list string))
  : option (gmap nat (list string)) :=
  l ← h !! p;
  Some (<[p := l ++ [x]]> h).

(** [x not in l and len(l) < 8] *)
Definition wants (p : nat) (x : string) (h : gmap nat (list string)) : option bool :=
  l ← h !! p;
  Some (bool_decide (x ∉ l) && (length l <? 8)).

(** The body of [for skill in common_skills]. *)
Fixpoint extend (enhanced : nat) (todo : list string) (h : gmap nat (list string))
  : option (gmap nat (list string)) :=
  match todo with
  | [] => Some h
  | skill :: rest =>
      b ← wants enhanced skill h;
      h' ← (if b : bool then append enhanced skill h else Some h);
      extend enhanced rest h'
  end.

(** [enhance_skills(skills)]: the address returned and the heap after the
    call; [None] when an address is not allocated. *)
Definition enhance_skills (skills : nat) (h : gmap nat (list string))
  : option (nat * gmap nat (list string)) :=
  '(enhanced, h1) ← copy skills h;
  l ← h1 !! enhanced;
  if length l <? 8
  then h2 ← extend enhanced common_skills h1; Some (enhanced, h2)
  else Some (enhanced, h1).

End Heap.



(** [get_job_recommendations(skills)] *)

Definition skill_to_jobs : list (string * list string) :=
  [("python", ["Python Developer"; "Software Engineer"; "Data Scientist"; "Backend Developer"]);
   ("javascript", ["Frontend Developer"; "Web Developer"; "Full Stack Developer"; "UI Engineer"]);
   ("java", ["Java Developer"; "Software Engineer"; "Android Developer"; "Backend Developer"]);
   ("sql", ["Database Administrator"; "Data Analyst"; "Backend Developer"; "SQL Developer"]);
   ("data analysis", ["Data Analyst"; "Business Analyst"; "Data Scientist"; "Research Analyst"]);
   ("machine learning", ["Machine Learning Engineer"; "Data Scientist"; "AI Researcher"; "ML Specialist"]);
   ("project management", ["Project Manager"; "Product Manager"; "Scrum Master"; "Program Manager"]);
   ("marketing", ["Marketing Specialist"; "Digital Marketer"; "Content Strategist"; "Marketing Manager"]);
   ("design", ["UI/UX Designer"; "Graphic Designer"; "Product Designer"; "Web Designer"])].

Definition default_jobs : list string :=
  ["Project Manager"; "Software Developer"; "Business Analyst";
   "Data Specialist"; "Marketing Coordinator"].

(** The inner loop: [for key in skill_to_jobs: if key in skill_lower: ...update(...)]. *)
Definition scan_keys (skill_lower : string) (recommended_jobs : gset string) : gset string :=
  foldl (fun acc kv =>
           if PyStr.contains kv.1 skill_lower then acc ∪ list_to_set kv.2 else acc)
        recommended_jobs skill_to_jobs.

(** The set built by the outer loop. *)
Definition recommended_jobs (skills : list string) : gset string :=
  foldl (fun acc skill => scan_keys (PyStr.lower skill) acc) ∅ skills.

(** [list(recommended_jobs)] lists the set in an order Python leaves open;
    [elements] fixes one. *)
Definition get_job_recommendations (skills : list string) : list string :=
  let found := recommended_jobs skills in
  if bool_decide (found = ∅) then default_jobs else elements found.

(** ** The renderers *)

(** Calls on the [FPDF] object, in the order made. *)
Inductive pdf_call :=
| AddPage
| SetFont (family style : string) (size : nat)
| Cell (w h : nat) (txt : string) (border ln : nat) (align : string)
| MultiCell (w h : nat) (txt : string)
| Ln (h : nat).

(** Runs of a paragraph and calls on the [Document] object:
    [doc.add_paragraph(text)] followed by the [add_run] calls on the
    paragraph it returned. *)
Inductive run := Run (text : string) (bold italic : bool).

Inductive docx_call :=
| AddHeading (text : string) (level : nat)
| AddParagraph (text : string) (runs : list run).

Inductive document :=
| PdfDocument (calls : list pdf_call)
| DocxDocument (calls : list docx_call).

#[global] Instance pdf_call_eq_dec : EqDecision pdf_call.
Proof. solve_decision. Defined.
#[global] Instance run_eq_dec : EqDecision run.
Proof. solve_decision. Defined.
#[global] Instance docx_call_eq_dec : EqDecision docx_call.
Proof. solve_decision. Defined.
#[global] Instance document_eq_dec : EqDecision document.
Proof. solve_decision. Defined.

(** What the libraries and the operating system may raise: [pdf.output],
    [doc.save], sending the file, [os.remove] ([None] is a normal return);
    and the user name of the bot, [bot.me().username], which the command
    filter compares mentions with. *)
Record backend := {
  pdf_output : string -> list pdf_call -> option exn;
  docx_save : string -> list docx_call -> option exn;
  send_document : string -> document -> option exn;
  os_remove : string -> option exn;
  me_username : string
}.

Definition check (fault : option exn) : res unit :=
  match fault with
  | Some e => raise e
  | None => ret tt
  end.

(** The parsing both renderers apply to one line of experience:
    [parts = exp.split(',', 3)], [if len(parts) >= 3], the stripped fields. *)
Definition experience_fields (exp : string) : option (string * string * string * string) :=
  let parts := PyStr.splitn "," 3 exp in
  if 3 <=? length parts then
    let position := PyStr.strip (nth 0 parts "") in
    let company := PyStr.strip (nth 1 parts "") in
    let duration := PyStr.strip (nth 2 parts "") in
    let description := if 3 <? length parts then PyStr.strip (nth 3 parts "") else "" in
    Some (position, company, duration, description)
  else None.

(** One line of education: [parts = edu.split(',')], [if len(parts) >= 2]. *)
Definition education_fields (edu : string) : option (string * string * string) :=
  let parts := PyStr.split "," edu in
  if 2 <=? length parts then
    let degree := PyStr.strip (nth 0 parts "") in
    let institution := PyStr.strip (nth 1 parts "") in
    let year := if 2 <? length parts then PyStr.strip (nth 2 parts "") else "" in
    Some (degree, institution, year)
  else None.

(** One project line: [parts = project.split(',', 1)], [if len(parts) >= 1]. *)
Definition project_fields (project : string) : option (string * string) :=
  let parts := PyStr.splitn "," 1 project in
  if 1 <=? length parts then
    let name := PyStr.strip (nth 0 parts "") in
    let description := if 1 <? length parts then PyStr.strip (nth 1 parts "") else "" in
    Some (name, description)
  else None.

(** [data['name'].replace(' ', '_').lower()] *)
Definition file_stem (name : value) : res string :=
  match name with
  | VStr s => ret (PyStr.lower (PyStr.replace " " "_" s))
  | _ => no_attribute name "replace"
  end.

Definition contact_line (email phone : value) : string :=
  "Email: " +:+ format_value email +:+ " | Phone: " +:+ format_value phone.

Definition template_font (template : value) : string :=
  if bool_decide (template = VStr "professional") then "Helvetica"
  else if bool_decide (template = VStr "creative") then "Helvetica"
  else if bool_decide (template = VStr "academic") then "Times"
  else "Courier".

Section PdfBody.

Variables title_font body_font : string.

Definition pdf_heading (title : string) : list pdf_call :=
  [SetFont title_font "B" 12; Cell 0 10 title 0 1 ""; SetFont body_font "" 10].

Definition pdf_experience (exp : string) : list pdf_call :=
  match experience_fields exp with
  | Some (position, company, duration, description) =>
      [SetFont body_font "B" 10; Cell 0 5 (position +:+ " - " +:+ company) 0 1 "";
       SetFont body_font "I" 10; Cell 0 5 duration 0 1 "";
       SetFont body_font "" 10; MultiCell 0 5 description; Ln 3]
  | None => []
  end.

Definition pdf_education (edu : string) : list pdf_call :=
  match education_fields edu with
  | Some (degree, institution, year) =>
      [SetFont body_font "B" 10; Cell 0 5 degree 0 1 "";
       SetFont body_font "" 10; Cell 0 5 (institution +:+ ", " +:+ year) 0 1 "";
       Ln 3]
  | None => []
  end.

Definition pdf_project (project : string) : list pdf_call :=
  match project_fields project with
  | Some (name, description) =>
      [SetFont body_font "B" 10; Cell 0 5 name 0 1 "";
       SetFont body_font "" 10; MultiCell 0 5 description; Ln 3]
  | None => []
  end.

End PdfBody.

(** The calls [generate_pdf_resume] makes before [pdf.output(filename)],
    with the file name. *)
Definition pdf_document (data : gmap string value) : res (string * list pdf_call) :=
  template <- getitem data "template";;
  name <- getitem data "name";;
  stem <- file_stem name;;
  let filename := "resume_" +:+ stem +:+ ".pdf" in
  let title_font := template_font template in
  let body_font := template_font template in
  name <- getitem data "name";;
  name_txt <- text_arg name;;
  email <- getitem data "email";;
  phone <- getitem data "phone";;
  let header :=
    [AddPage;
     SetFont title_font "B" 16; Cell 0 10 name_txt 0 1 "C";
     SetFont body_font "" 10; Cell 0 5 (contact_line email phone) 0 1 "C"; Ln 5] in
  summary <- getitem data "summary";;
  summary_txt <- text_arg summary;;
  let summary_part :=
    pdf_heading title_font body_font "PROFESSIONAL SUMMARY"
    ++ [MultiCell 0 5 summary_txt; Ln 5] in
  experience <- getitem data "experience";;
  exps <- iter experience;;
  let experience_part :=
    pdf_heading title_font body_font "WORK EXPERIENCE"
    ++ concat (pdf_experience body_font <$> exps) in
  education <- getitem data "education";;
  edus <- iter education;;
  let education_part :=
    pdf_heading title_font body_font "EDUCATION"
    ++ concat (pdf_education body_font <$> edus) in
  enhanced <- getitem data "enhanced_skills";;
  skills_text <- Py.join ", " enhanced;;
  let skills_part :=
    pdf_heading title_font body_font "SKILLS"
    ++ [MultiCell 0 5 skills_text; Ln 5] in
  projects <- getitem data "projects";;
  projects_part <-
    (if truthy projects then
       projects <- getitem data "projects";;
       items <- iter projects;;
       ret (pdf_heading title_font body_font "PROJECTS"
            ++ concat (pdf_project body_font <$> items))
     else ret []);;
  ret (filename,
       header ++ summary_part ++ experience_part ++ education_part
       ++ skills_part ++ projects_part).

(** *** What python-docx accepts

    A run's text goes to the document character by character: a tab, a line
    feed or a carriage return becomes an element of its own, everything else
    is text handed to lxml, which refuses the other control characters (codes
    below 32) with a [ValueError].  [add_heading] and [add_paragraph] add their
    text as a run. *)

Definition xml_char (c : ascii) : bool :=
  let n := PyStr.code c in
  (32 <=? n) || (n =? 9) || (n =? 10) || (n =? 13).

Fixpoint xml_text (s : string) : bool :=
  match s with
  | EmptyString => true
  | String c s' => xml_char c && xml_text s'
  end.

Definition run_text (r : run) : string :=
  match r with Run t _ _ => t end.

Definition call_accepted (c : docx_call) : bool :=
  match c with
  | AddHeading t _ => xml_text t
  | AddParagraph t runs => xml_text t && forallb (fun r => xml_text (run_text r)) runs
  end.

Definition xml_refusal : exn :=
  ValueError "All strings must be XML compatible: Unicode or ASCII, no NULL bytes or control characters".

(** A run of calls on the document with nothing else in between: they are
    made, or the first one with a refused text raises. *)
Definition accept (calls : list docx_call) : res (list docx_call) :=
  if forallb call_accepted calls then ret calls else raise xml_refusal.

Definition docx_experience (exp : string) : list docx_call :=
  match experience_fields exp with
  | Some (position, company, duration, description) =>
      [AddParagraph "" [Run (position +:+ " - " +:+ company +:+ PyStr.nl) true false;
                     Run (duration +:+ PyStr.nl) false true;
                     Run description false false]]
  | None => []
  end.

Definition docx_education (edu : string) : list docx_call :=
  match education_fields edu with
  | Some (degree, institution, year) =>
      [AddParagraph "" [Run (degree +:+ PyStr.nl) true false;
                     Run (institution +:+ ", " +:+ year) false false]]
  | None => []
  end.

Definition docx_project (project : string) : list docx_call :=
  match project_fields project with
  | Some (name, description) =>
      [AddParagraph "" [Run (name +:+ PyStr.nl) true false;
                     Run description false false]]
  | None => []
  end.

(** The calls [generate_docx_resume] makes before [doc.save(filename)],
    each group of calls at its place between the look-ups. *)
Definition docx_document (data : gmap string value) : res (string * list docx_call) :=
  template <- getitem data "template";;
  name <- getitem data "name";;
  stem <- file_stem name;;
  let filename := "resume_" +:+ stem +:+ ".docx" in
  name <- getitem data "name";;
  name_txt <- text_arg name;;
  title <- accept [AddHeading name_txt 0];;
  email <- getitem data "email";;
  phone <- getitem data "phone";;
  contact <- accept [AddParagraph "" [Run (contact_line email phone) false false]];;
  summary_title <- accept [AddHeading "Professional Summary" 1];;
  summary <- getitem data "summary";;
  summary_txt <- text_arg summary;;
  summary_text <- accept [AddParagraph summary_txt []];;
  experience_title <- accept [AddHeading "Work Experience" 1];;
  experience <- getitem data "experience";;
  exps <- iter experience;;
  experience_entries <- accept (concat (docx_experience <$> exps));;
  education_title <- accept [AddHeading "Education" 1];;
  education <- getitem data "education";;
  edus <- iter education;;
  education_entries <- accept (concat (docx_education <$> edus));;
  skills_title <- accept [AddHeading "Skills" 1];;
  enhanced <- getitem data "enhanced_skills";;
  skills_text <- Py.join ", " enhanced;;
  skills_line <- accept [AddParagraph skills_text []];;
  projects <- getitem data "projects";;
  projects_part <-
    (if truthy projects then
       projects_title <- accept [AddHeading "Projects" 1];;
       projects <- getitem data "projects";;
       items <- iter projects;;
       entries <- accept (concat (docx_project <$> items));;
       ret (projects_title ++ entries)
     else ret []);;
  ret (filename,
       (title ++ contact) ++ (summary_title ++ summary_text)
       ++ (experience_title ++ experience_entries)
       ++ (education_title ++ education_entries)
       ++ (skills_title ++ skills_line) ++ projects_part).

(** ** The dialogue *)

Definition TEMPLATES : list (string * string) :=
  [("professional", "Professional template with a clean, minimalist design");
   ("creative", "Creative template with modern styling and accents");
   ("academic", "Academic template focused on publications and research");
   ("technical", "Technical template highlighting skills and projects")].

(** The identifiers offered at the Format step. *)
Definition FORMATS : list string := ["pdf"; "docx"].

Module ResumeForm.
Inductive t :=
| name | email | phone | education | experience | skills | projects
| template | format.

#[global] Instance eq_dec : EqDecision t.
Proof. solve_decision. Defined.
End ResumeForm.

(** The [FSMContext] of one chat: the current state and the stored data. *)
Record FSMContext := {
  fsm_state : option ResumeForm.t;
  fsm_data : gmap string value
}.

Definition set_state (s : ResumeForm.t) (ctx : FSMContext) : FSMContext :=
  {| fsm_state := Some s; fsm_data := fsm_data ctx |}.

Definition update_data (key : string) (v : value) (ctx : FSMContext) : FSMContext :=
  {| fsm_state := fsm_state ctx; fsm_data := <[key := v]> (fsm_data ctx) |}.

(** [state.clear()]: no state, no data. *)
Definition clear (ctx : FSMContext) : FSMContext :=
  {| fsm_state := None; fsm_data := ∅ |}.

Inductive button := InlineKeyboardButton (text callback_data : string).

(** What a handler sends. *)
Inductive out :=
| Answer (text : string) (reply_markup : list (list button))
| AnswerCallback
| AnswerDocument (filename : string) (doc : document) (caption : string)
| LogError (msg : string).

(** An update: a message with its text ([None]: a message with neither text
    nor caption, a sticker say), a message without text but with a caption (a
    photo, say), or the press of a button. *)
Inductive update :=
| Message (text : option string)
| Captioned (caption : string)
| CallbackQuery (data : string).

Definition text_value (text : option string) : value :=
  match text with
  | Some s => VStr s
  | None => VNone
  end.

(** [builder.adjust(n)]: rows of [n] buttons.  [fuel] bounds the number of
    rows. *)
Fixpoint adjust (fuel n : nat) (buttons : list button) : list (list button) :=
  match fuel, buttons with
  | _, [] => []
  | 0, _ => [buttons]
  | S fuel', _ => take n buttons :: adjust fuel' n (drop n buttons)
  end.

Definition template_keyboard : list (list button) :=
  let buttons :=
    (fun kv => InlineKeyboardButton (PyStr.capitalize kv.1) ("template:" +:+ kv.1))
      <$> TEMPLATES in
  adjust (length buttons) 2 buttons.

Definition format_keyboard : list (list button) :=
  [[InlineKeyboardButton "PDF" "format:pdf"; InlineKeyboardButton "DOCX" "format:docx"]].

Definition cmd_start (ctx : FSMContext) : FSMContext * list out :=
  (ctx,
   [Answer ("👋 Welcome to the Resume Builder Bot! I'll help you create a professional resume."
            +:+ PyStr.nl +:+ PyStr.nl
            +:+ "Let's get started with your information. Type /build to begin creating your resume.")
           []]).

Definition cmd_build (ctx : FSMContext) : FSMContext * list out :=
  (set_state ResumeForm.name ctx, [Answer "What's your full name?" []]).

Definition process_name (text : option string) (ctx : FSMContext) : FSMContext * list out :=
  (set_state ResumeForm.email (update_data "name" (text_value text) ctx),
   [Answer "Great! What's your email address?" []]).

Definition process_email (text : option string) (ctx : FSMContext) : FSMContext * list out :=
  (set_state ResumeForm.phone (update_data "email" (text_value text) ctx),
   [Answer "What's your phone number?" []]).

Definition process_phone (text : option string) (ctx : FSMContext) : FSMContext * list out :=
  (set_state ResumeForm.education (update_data "phone" (text_value text) ctx),
   [Answer ("Please enter your education details in this format:" +:+ PyStr.nl +:+ PyStr.nl
            +:+ "Degree, Institution, Year" +:+ PyStr.nl
            +:+ "Example: 'Bachelor of Science in Computer Science, MIT, 2020'"
            +:+ PyStr.nl +:+ PyStr.nl
            +:+ "You can add multiple entries separated by a new line.")
           []]).

(** In the next four handlers a message without text makes the first
    statement raise ([None] has no [split] or [lower]): the handler ends
    there, with nothing stored and nothing sent. *)
Definition process_education (text : option string) (ctx : FSMContext) : FSMContext * list out :=
  match text with
  | None => (ctx, [])
  | Some s =>
      (set_state ResumeForm.experience
         (update_data "education" (VList (PyStr.split "010" s)) ctx),
       [Answer ("Please share your work experience in this format:" +:+ PyStr.nl +:+ PyStr.nl
                +:+ "Position, Company, Duration, Description" +:+ PyStr.nl
                +:+ "Example: 'Software Engineer, Google, 2020-2022, Developed features for Google Maps'"
                +:+ PyStr.nl +:+ PyStr.nl
                +:+ "You can add multiple entries separated by a new line.")
               []])
  end.

Definition process_experience (text : option string) (ctx : FSMContext) : FSMContext * list out :=
  match text with
  | None => (ctx, [])
  | Some s =>
      (set_state ResumeForm.skills
         (update_data "experience" (VList (PyStr.split "010" s)) ctx),
       [Answer ("What are your key skills? Please list them separated by commas." +:+ PyStr.nl
                +:+ "Example: 'Python, JavaScript, Data Analysis, Project Management'")
               []])
  end.

(** [[skill.strip() for skill in message.text.split(',')]] *)
Definition parse_skills (s : string) : list string :=
  PyStr.strip <$> PyStr.split "," s.

Definition process_skills (text : option string) (ctx : FSMContext) : FSMContext * list out :=
  match text with
  | None => (ctx, [])
  | Some s =>
      let skills := parse_skills s in
      (set_state ResumeForm.projects (update_data "skills" (VList skills) ctx),
       [Answer ("Please list any notable projects (optional). Format:" +:+ PyStr.nl +:+ PyStr.nl
                +:+ "Project Name, Description" +:+ PyStr.nl
                +:+ "Example: 'Personal Website, Developed a portfolio website using React'"
                +:+ PyStr.nl +:+ PyStr.nl
                +:+ "You can add multiple entries separated by a new line or type 'skip' to continue.")
               []])
  end.

Definition process_projects (text : option string) (ctx : FSMContext) : FSMContext * list out :=
  match text with
  | None => (ctx, [])
  | Some s =>
      let ctx :=
        if String.eqb (PyStr.lower s) "skip"
        then update_data "projects" (VList []) ctx
        else update_data "projects" (VList (PyStr.split "010" s)) ctx in
      (set_state ResumeForm.template ctx,
       [Answer "Please select a resume template:" template_keyboard])
  end.

(** [callback_query.data.split(':')[1]]; the index exists for data that
    passed the handler's filter.  Without it the handler ends after
    [callback_query.answer()]. *)
Definition process_template (data : string) (ctx : FSMContext) : FSMContext * list out :=
  match PyStr.split ":" data with
  | _ :: template_id :: _ =>
      (set_state ResumeForm.format (update_data "template" (VStr template_id) ctx),
       [AnswerCallback; Answer "Please select the output format:" format_keyboard])
  | _ => (ctx, [AnswerCallback])
  end.

(** *** The Format step *)

(** A computation that sends messages and returns or raises; what was sent
    before an exception stays sent. *)
Definition act (A : Type) : Type := list out * res A.

Definition act_bind {A B} (m : act A) (k : A -> act B) : act B :=
  match m with
  | (o, inl e) => (o, inl e)
  | (o, inr a) => let '(o', r) := k a in (o ++ o', r)
  end.

Definition lift {A} (r : res A) : act A := ([], r).
Definition send (x : out) : act unit := ([x], ret tt).

Notation "x <~ m ;; k" := (act_bind m (fun x => k))
  (at level 100, m at next level, right associativity,
   format "'[v' x  <~  m ;;  '/' k ']'").

Definition job_line (job : string) : string := "• " +:+ job +:+ PyStr.nl.

(** [job_message], built from [jobs[:5]]. *)
Definition job_message (jobs : list string) : string :=
  foldl (fun msg job => msg +:+ job_line job)
        ("💼 Based on your skills, here are some job recommendations:"
         +:+ PyStr.nl +:+ PyStr.nl)
        (take 5 jobs).

Section WithBackend.

Variable io : backend.

(** [generate_pdf_resume(data)] and [generate_docx_resume(data)]: the file
    name returned and the document written under it. *)
Definition generate_pdf_resume (data : gmap string value) : res (string * document) :=
  r <- pdf_document data;;
  _ <- check (pdf_output io r.1 r.2);;
  ret (r.1, PdfDocument r.2).

Definition generate_docx_resume (data : gmap string value) : res (string * document) :=
  r <- docx_document data;;
  _ <- check (docx_save io r.1 r.2);;
  ret (r.1, DocxDocument r.2).

(** The derived fields, as the [try] block stores them in [resume_data]. *)
Definition derive (resume_data : gmap string value) : res (gmap string value) :=
  summary <- generate_summary resume_data;;
  let resume_data := <["summary" := VStr summary]> resume_data in
  skills <- getitem resume_data "skills";;
  enhanced_skills <- call_enhance_skills skills;;
  ret (<["enhanced_skills" := VList enhanced_skills]> resume_data).

(** The body of the [try] block of [process_format]. *)
Definition render_and_send (resume_data : gmap string value) : act unit :=
  resume_data <~ lift (derive resume_data);;
  fmt <~ lift (getitem resume_data "format");;
  file <~ lift (if bool_decide (fmt = VStr "pdf")
                then generate_pdf_resume resume_data
                else generate_docx_resume resume_data);;
  _ <~ lift (check (send_document io file.1 file.2));;
  _ <~ send (AnswerDocument file.1 file.2 "🎉 Here's your resume!");;
  _ <~ lift (check (os_remove io file.1));;
  skills <~ lift (getitem resume_data "skills");;
  items <~ lift (iter skills);;
  let jobs := get_job_recommendations items in
  send (Answer (job_message jobs) []).

(** What the [except] clause does with the exception. *)
Definition report (e : exn) : list out :=
  [LogError ("Error generating resume: " +:+ exn_str e);
   Answer ("Sorry, there was an error generating your resume: " +:+ exn_str e
           +:+ PyStr.nl +:+ "Please try again.") []].

(** The [try] statement: what was sent, and the report when the body raised. *)
Definition attempt_render (resume_data : gmap string value) : list out :=
  let attempt := render_and_send resume_data in
  attempt.1 ++ match attempt.2 with
               | inl e => report e
               | inr _ => []
               end.

(** [process_format] when every message it sends is delivered; the handler
    with sends that may raise is [process_format] below. *)
Definition process_format_delivered (data : string) (ctx : FSMContext)
  : FSMContext * list out :=
  match PyStr.split ":" data with
  | _ :: format_type :: _ =>
      let ctx := update_data "format" (VStr format_type) ctx in
      let resume_data := fsm_data ctx in
      (clear ctx,
       [AnswerCallback;
        Answer "⏳ Processing your resume... This may take a moment." []]
       ++ attempt_render resume_data
       ++ [Answer "Type /build to create another resume or /start to see the welcome message again." []])
  | _ => (ctx, [AnswerCallback])
  end.

(** *** The dispatcher *)

(** The first word of a message, as [text.split(maxsplit=1)] finds it. *)
Fixpoint until_space (s : string) : string :=
  match s with
  | EmptyString => EmptyString
  | String c s' => if PyStr.is_space c then EmptyString else String c (until_space s')
  end.

Definition first_word (s : string) : string := until_space (PyStr.lstrip s).

(** [s.partition("@")]: the text before the first "@" and the text after. *)
Fixpoint partition_at (s : string) : string * string :=
  match s with
  | EmptyString => (EmptyString, EmptyString)
  | String c s' =>
      if Ascii.eqb c "@" then (EmptyString, s')
      else let p := partition_at s' in (String c p.1, p.2)
  end.

(** The mention check of the filter: no mention, or a bot without user
    name, or the bot's user name up to letter case. *)
Definition mention_matches (mention : string) : bool :=
  String.eqb mention ""
  || String.eqb (me_username io) ""
  || String.eqb (PyStr.lower mention) (PyStr.lower (me_username io)).

(** The [Command(cmd)] filter on [message.text or message.caption]: the
    first word is [/cmd] or [/cmd@mention] with a mention that matches. *)
Definition is_command (cmd : string) (text : option string) : bool :=
  match text with
  | Some s =>
      match first_word s with
      | String c rest =>
          Ascii.eqb c "/"
          && mention_matches (partition_at rest).2
          && String.eqb (partition_at rest).1 cmd
      | EmptyString => false
      end
  | None => false
  end.

(** A message through the dispatcher: [text] is [message.text], which the
    handlers read, [command_text] is [message.text or message.caption], which
    the command filters read. *)
Definition feed_message (text command_text : option string) (ctx : FSMContext)
  : FSMContext * list out :=
  if is_command "start" command_text then cmd_start ctx
  else if is_command "build" command_text then cmd_build ctx
  else match fsm_state ctx with
       | Some ResumeForm.name => process_name text ctx
       | Some ResumeForm.email => process_email text ctx
       | Some ResumeForm.phone => process_phone text ctx
       | Some ResumeForm.education => process_education text ctx
       | Some ResumeForm.experience => process_experience text ctx
       | Some ResumeForm.skills => process_skills text ctx
       | Some ResumeForm.projects => process_projects text ctx
       | _ => (ctx, [])
       end.

(** One update through the dispatcher, on a transport that delivers every
    message: the first handler, in registration order, whose filters pass;
    none means the update is dropped.  Every handler stores before it sends,
    except [process_template] and [process_format], which answer the callback
    first. *)
Definition feed_update (ctx : FSMContext) (u : update) : FSMContext * list out :=
  match u with
  | Message text => feed_message text text ctx
  | Captioned caption => feed_message None (Some caption) ctx
  | CallbackQuery data =>
      if PyStr.startswith "template:" data
         && bool_decide (fsm_state ctx = Some ResumeForm.template)
      then process_template data ctx
      else if PyStr.startswith "format:" data
              && bool_decide (fsm_state ctx = Some ResumeForm.format)
      then process_format_delivered data ctx
      else (ctx, [])
  end.

(** A run of the dispatcher over a list of updates. *)
Definition feed_all (ctx : FSMContext) (us : list update) : FSMContext * list out :=
  foldl (fun acc u => let r := feed_update acc.1 u in (r.1, acc.2 ++ r.2)) (ctx, []) us.

End WithBackend.

(** A backend on which nothing fails. *)
Definition quiet : backend :=
  {| pdf_output := fun _ _ => None;
     docx_save := fun _ _ => None;
     send_document := fun _ _ => None;
     os_remove := fun _ => None;
     me_username := "resume_builder_bot" |}.

(** ** Completed session records *)

(** The nine answers of a dialogue, as the handlers store them. *)
Record SessionRecord := {
  fullName : string;
  r_email : string;
  r_phone : string;
  r_education : list string;
  r_experience : list string;
  r_skills : list string;
  r_projects : list string;
  templateId : string;
  outputFormat : string
}.

Definition session_data (r : SessionRecord) : gmap string value :=
  <["format" := VStr (outputFormat r)]>
  (<["template" := VStr (templateId r)]>
  (<["projects" := VList (r_projects r)]>
  (<["skills" := VList (r_skills r)]>
  (<["experience" := VList (r_experience r)]>
  (<["education" := VList (r_education r)]>
  (<["phone" := VStr (r_phone r)]>
  (<["email" := VStr (r_email r)]>
  (<["name" := VStr (fullName r)]> ∅)))))))).

Definition summary_of (r : SessionRecord) : string :=
  fullName r +:+ " is a dedicated professional with expertise in "
  +:+ PyStr.join ", " (take 3 (r_skills r))
  +:+ ". Seeking new opportunities to apply these skills in a challenging environment.".

(** The record handed to the renderers: the answers and the derived fields. *)
Definition completed (r : SessionRecord) : gmap string value :=
  <["enhanced_skills" := VList (enhance_skills (r_skills r))]>
  (<["summary" := VStr (summary_of r)]> (session_data r)).

(** ** The text of a rendered document

    A document read back as its sections: a heading and the text under it.
    In the PDF a heading is a cell set in 12 points or more (the name in 16,
    the section titles in 12) and every other cell is a line of the text
    under the last heading; [ln] and the fonts are layout.  In the DOCX file
    a heading is [add_heading] and a paragraph is the text of its runs,
    closed by a line break. *)

Definition add_text (txt : string) (secs : list (string * string)) : list (string * string) :=
  match secs with
  | [] => [("", txt)]
  | (h, b) :: rest => (h, b +:+ txt) :: rest
  end.

Definition pdf_step (st : nat * list (string * string)) (c : pdf_call)
  : nat * list (string * string) :=
  match c with
  | SetFont _ _ size => (size, st.2)
  | Cell _ _ txt _ _ _ =>
      if 12 <=? st.1 then (st.1, (txt, "") :: st.2)
      else (st.1, add_text (txt +:+ PyStr.nl) st.2)
  | MultiCell _ _ txt => (st.1, add_text (txt +:+ PyStr.nl) st.2)
  | AddPage | Ln _ => st
  end.

Definition pdf_text (calls : list pdf_call) : list (string * string) :=
  reverse (foldl pdf_step (0, []) calls).2.

Definition docx_step (secs : list (string * string)) (c : docx_call)
  : list (string * string) :=
  match c with
  | AddHeading t _ => (t, "") :: secs
  | AddParagraph t runs =>
      add_text (t +:+ PyStr.join "" (run_text <$> runs) +:+ PyStr.nl) secs
  end.

Definition docx_text (calls : list docx_call) : list (string * string) :=
  reverse (foldl docx_step [] calls).

Definition document_text (d : document) : list (string * string) :=
  match d with
  | PdfDocument calls => pdf_text calls
  | DocxDocument calls => docx_text calls
  end.

(** ** A worked dialogue *)

Definition ada : SessionRecord :=
  {| fullName := "Ada Lovelace";
     r_email := "ada@example.org";
     r_phone := "555 0100";
     r_education := ["BS Computer Science, MIT, 2020"; "Bad Line"];
     r_experience := ["Engineer, Babbage Ltd, 1842-1843, Notes, tables, programs"];
     r_skills := ["Python"; "SQL"];
     r_projects := [];
     templateId := "academic";
     outputFormat := "pdf" |}.

Definition ada_dialogue : list update :=
  [Message (Some "/build");
   Message (Some "Ada Lovelace");
   Message (Some "ada@example.org");
   Message (Some "555 0100");
   Message (Some ("BS Computer Science, MIT, 2020" +:+ PyStr.nl +:+ "Bad Line"));
   Message (Some "Engineer, Babbage Ltd, 1842-1843, Notes, tables, programs");
   Message (Some "Python, SQL");
   Message (Some "skip");
   CallbackQuery "template:academic"].

Definition idle : FSMContext := {| fsm_state := None; fsm_data := ∅ |}.

(** ** The document as the specification lists it

    Section 4.4 of the specification, written down directly: the header,
    the summary, one block per parsed experience, education and project
    entry, the skills line.  [title] is the spelling of the section titles;
    every paragraph ends in a line break. *)

Definition concat_text (l : list string) : string := foldr String.append "" l.

Definition experience_text (e : string * string * string * string) : string :=
  let '(position, company, duration, description) := e in
  position +:+ " - " +:+ company +:+ PyStr.nl
  +:+ duration +:+ PyStr.nl +:+ description +:+ PyStr.nl.

Definition education_text (e : string * string * string) : string :=
  let '(degree, institution, year) := e in
  degree +:+ PyStr.nl +:+ institution +:+ ", " +:+ year +:+ PyStr.nl.

Definition project_text (e : string * string) : string :=
  let '(name, description) := e in
  name +:+ PyStr.nl +:+ description +:+ PyStr.nl.

Definition resume_sections (title : string -> string) (r : SessionRecord)
  : list (string * string) :=
  [(fullName r,
    ("Email: " +:+ r_email r +:+ " | Phone: " +:+ r_phone r) +:+ PyStr.nl);
   (title "Professional Summary", summary_of r +:+ PyStr.nl);
   (title "Work Experience",
    concat_text (experience_text <$> omap experience_fields (r_experience r)));
   (title "Education",
    concat_text (education_text <$> omap education_fields (r_education r)));
   (title "Skills", PyStr.join ", " (enhance_skills (r_skills r)) +:+ PyStr.nl)]
  ++ match r_projects r with
     | [] => []
     | ps => [(title "Projects", concat_text (project_text <$> omap project_fields ps))]
     end.

(** ** Sample inputs *)

Definition nine_skills : list string :=
  ["Python"; "SQL"; "Java"; "Go"; "Rust"; "C"; "Docker"; "Linux"; "Git"].

(** The phrase of the summary as the specification words it: the first
    three skills in listed order, or as many as there are. *)
Definition skills_phrase (skills : list string) : string :=
  match skills with
  | [] => ""
  | [skill1] => skill1
  | [skill1; skill2] => skill1 +:+ ", " +:+ skill2
  | skill1 :: skill2 :: skill3 :: _ => skill1 +:+ ", " +:+ skill2 +:+ ", " +:+ skill3
  end.

(** ** Reading the messages of a run *)

(** The apology the [except] clause sends. *)
Definition is_apology (o : out) : bool :=
  match o with
  | Answer text _ =>
      PyStr.startswith "Sorry, there was an error generating your resume: " text
  | _ => false
  end.

Definition is_document (o : out) : bool :=
  match o with
  | AnswerDocument _ _ _ => true
  | _ => false
  end.

Definition button_data (b : button) : string :=
  match b with InlineKeyboardButton _ d => d end.

(** The identifier a handler reads from callback data: [data.split(':')[1]]. *)
Definition selected (data : string) : string := nth 1 (PyStr.split ":" data) "".

(** A dialogue whose two selections carry identifiers no keyboard offers. *)
Definition unlisted_dialogue : list update :=
  [Message (Some "/build");
   Message (Some "Ada Lovelace");
   Message (Some "ada@example.org");
   Message (Some "555 0100");
   Message (Some "BS Computer Science, MIT, 2020");
   Message (Some "Engineer, Babbage Ltd, 1842-1843, Notes");
   Message (Some "Python, SQL");
   Message (Some "skip");
   CallbackQuery "template:fancy";
   CallbackQuery "format:odt"].

(** A dialogue whose name message carries no text (a photo, say): the
    renderer raises on [None.replace]. *)
Definition photo_dialogue : list update :=
  [Message (Some "/build");
   Message None;
   Message (Some "ada@example.org");
   Message (Some "555 0100");
   Message (Some "BS Computer Science, MIT, 2020");
   Message (Some "Engineer, Babbage Ltd, 1842-1843, Notes");
   Message (Some "Python, SQL");
   Message (Some "skip");
   CallbackQuery "template:academic";
   CallbackQuery "format:pdf"].

(** A backend on which writing the PDF fails. *)
Definition full_disk : backend :=
  {| pdf_output := fun _ _ => Some (OtherError "No space left on device");
     docx_save := fun _ _ => None;
     send_document := fun _ _ => None;
     os_remove := fun _ => None;
     me_username := "resume_builder_bot" |}.

Definition apology (e : exn) : out :=
  Answer ("Sorry, there was an error generating your resume: " +:+ exn_str e
          +:+ PyStr.nl +:+ "Please try again.") [].

(** The file name: the name in lower case, spaces replaced by "_". *)
Definition file_name (r : SessionRecord) (extension : string) : string :=
  "resume_" +:+ PyStr.lower (PyStr.replace " " "_" (fullName r)) +:+ extension.

(** The section titles of the DOCX file, in order. *)
Definition section_titles (r : SessionRecord) : list string :=
  ["Professional Summary"; "Work Experience"; "Education"; "Skills"]
  ++ (if bool_decide (r_projects r = []) then [] else ["Projects"]).


(** The education input of the specification's example. *)
Definition education_example : string :=
  "BS Computer Science, MIT, 2020" +:+ PyStr.nl +:+ "Bad Line".

(** ** Contexts a dialogue can reach *)

(** A message text as stored: [None] or a [str]. *)
Definition is_text (v : value) : bool :=
  match v with
  | VList _ => false
  | _ => true
  end.

Definition is_list (v : value) : bool :=
  match v with
  | VList _ => true
  | _ => false
  end.

Definition is_str (v : value) : bool :=
  match v with
  | VStr _ => true
  | _ => false
  end.

(** What the handlers store under each key; no handler leaves another key
    behind. *)
Definition key_type (key : string) (v : value) : bool :=
  if bool_decide (key ∈ ["name"; "email"; "phone"]) then is_text v
  else if bool_decide (key ∈ ["education"; "experience"; "skills"; "projects"]) then is_list v
  else if bool_decide (key = "template") then is_str v
  else false.

(** The keys already answered when a step waits for its input. *)
Definition answered (s : ResumeForm.t) : list string :=
  match s with
  | ResumeForm.name => []
  | ResumeForm.email => ["name"]
  | ResumeForm.phone => ["name"; "email"]
  | ResumeForm.education => ["name"; "email"; "phone"]
  | ResumeForm.experience => ["name"; "email"; "phone"; "education"]
  | ResumeForm.skills => ["name"; "email"; "phone"; "education"; "experience"]
  | ResumeForm.projects =>
      ["name"; "email"; "phone"; "education"; "experience"; "skills"]
  | ResumeForm.template =>
      ["name"; "email"; "phone"; "education"; "experience"; "skills"; "projects"]
  | ResumeForm.format =>
      ["name"; "email"; "phone"; "education"; "experience"; "skills"; "projects";
       "template"]
  end.

Definition well_formed (ctx : FSMContext) : Prop :=
  map_Forall (fun k v => key_type k v = true) (fsm_data ctx)
  ∧ ∀ s, fsm_state ctx = Some s →
         Forall (fun k => is_Some (fsm_data ctx !! k)) (answered s).

(** A message that no command filter takes. *)
Definition plain (io : backend) (text : option string) : bool :=
  negb (is_command io "start" text) && negb (is_command io "build" text).

(** An exception that came from the backend. *)
Definition backend_raised (io : backend) (e : exn) : Prop :=
  ∃ f, (∃ c, pdf_output io f c = Some e)
       ∨ (∃ c, docx_save io f c = Some e)
       ∨ (∃ doc, send_document io f doc = Some e)
       ∨ os_remove io f = Some e.

(** The updates of one dialogue, from /build to the template button. *)
Definition dialogue (name email phone : option string)
    (education experience skills projects template_id : string) : list update :=
  [Message (Some "/build");
   Message name; Message email; Message phone;
   Message (Some education); Message (Some experience);
   Message (Some skills); Message (Some projects);
   CallbackQuery ("template:" +:+ template_id)].

(** What the Projects handler stores for a text. *)
Definition parse_projects (s : string) : list string :=
  if String.eqb (PyStr.lower s) "skip" then [] else PyStr.split "010" s.

(** A record with another template identifier. *)
Definition with_template (t : string) (r : SessionRecord) : SessionRecord :=
  {| fullName := fullName r;
     r_email := r_email r;
     r_phone := r_phone r;
     r_education := r_education r;
     r_experience := r_experience r;
     r_skills := r_skills r;
     r_projects := r_projects r;
     templateId := t;
     outputFormat := outputFormat r |}.

(** A call that sets a font sets this family. *)
Definition uses_font (family : string) (c : pdf_call) : Prop :=
  match c with
  | SetFont f _ _ => f = family
  | _ => True
  end.

(** [ada] with two project lines, the second one blank. *)
Definition ada_with_projects : SessionRecord :=
  {| fullName := fullName ada;
     r_email := r_email ada;
     r_phone := r_phone ada;
     r_education := r_education ada;
     r_experience := r_experience ada;
     r_skills := r_skills ada;
     r_projects := ["Analytical Engine, Notes, with a program"; ""];
     templateId := templateId ada;
     outputFormat := outputFormat ada |}.

(** ** The DOCX file of a completed record *)

(** The calls [generate_docx_resume] makes for a completed record, in order,
    when python-docx accepts every text. *)
Definition docx_layout (r : SessionRecord) : list docx_call :=
  ([AddHeading (fullName r) 0]
   ++ [AddParagraph "" [Run (contact_line (VStr (r_email r)) (VStr (r_phone r)))
                            false false]])
  ++ ([AddHeading "Professional Summary" 1] ++ [AddParagraph (summary_of r) []])
  ++ ([AddHeading "Work Experience" 1] ++ concat (docx_experience <$> r_experience r))
  ++ ([AddHeading "Education" 1] ++ concat (docx_education <$> r_education r))
  ++ ([AddHeading "Skills" 1]
      ++ [AddParagraph (PyStr.join ", " (enhance_skills (r_skills r))) []])
  ++ match r_projects r with
     | [] => []
     | ps => [AddHeading "Projects" 1] ++ concat (docx_project <$> ps)
     end.

(** No title and no text of a document has a character lxml refuses. *)
Definition xml_sections (sections : list (string * string)) : bool :=
  forallb (fun s => xml_text s.1 && xml_text s.2) sections.

(** ** The Format step when sending can fail

    [callback_query.answer()] and [message.answer(...)] are requests to
    Telegram and raise when it refuses them (the user blocked the bot, the
    callback is too old).  [refuses] says what sending a message raises;
    sending the document is [send_document] of the backend.  An exception
    outside the [try] block, or in the [except] clause, ends the handler
    where it is raised. *)

Record outcome := {
  after : FSMContext;
  sent : list out;
  raised : option exn
}.

Definition processing_notice : out :=
  Answer "⏳ Processing your resume... This may take a moment." [].

Definition closing_notice : out :=
  Answer "Type /build to create another resume or /start to see the welcome message again." [].

Section Sending.

Variable io : backend.
Variable refuses : out -> option exn.

Definition deliver (x : out) : act unit :=
  match refuses x with
  | Some e => ([], raise e)
  | None => ([x], ret tt)
  end.

(** The body of the [try] block. *)
Definition render_and_deliver (resume_data : gmap string value) : act unit :=
  resume_data <~ lift (derive resume_data);;
  fmt <~ lift (getitem resume_data "format");;
  file <~ lift (if bool_decide (fmt = VStr "pdf")
                then generate_pdf_resume io resume_data
                else generate_docx_resume io resume_data);;
  _ <~ lift (check (send_document io file.1 file.2));;
  _ <~ send (AnswerDocument file.1 file.2 "🎉 Here's your resume!");;
  _ <~ lift (check (os_remove io file.1));;
  skills <~ lift (getitem resume_data "skills");;
  items <~ lift (iter skills);;
  let jobs := get_job_recommendations items in
  deliver (Answer (job_message jobs) []).

(** [state.clear()] and the last message. *)
Definition close (ctx : FSMContext) (so_far : list out) : outcome :=
  match refuses closing_notice with
  | Some e => {| after := clear ctx; sent := so_far; raised := Some e |}
  | None => {| after := clear ctx; sent := so_far ++ [closing_notice]; raised := None |}
  end.

Definition process_format (data : string) (ctx : FSMContext) : outcome :=
  match refuses AnswerCallback with
  | Some e => {| after := ctx; sent := []; raised := Some e |}
  | None =>
      match PyStr.split ":" data with
      | _ :: format_type :: _ =>
          let ctx := update_data "format" (VStr format_type) ctx in
          match refuses processing_notice with
          | Some e => {| after := ctx; sent := [AnswerCallback]; raised := Some e |}
          | None =>
              let resume_data := fsm_data ctx in
              let attempt := render_and_deliver resume_data in
              let so_far := [AnswerCallback; processing_notice] ++ attempt.1 in
              match attempt.2 with
              | inr _ => close ctx so_far
              | inl e =>
                  let logged :=
                    so_far ++ [LogError ("Error generating resume: " +:+ exn_str e)] in
                  match refuses (apology e) with
                  | Some e' => {| after := ctx; sent := logged; raised := Some e' |}
                  | None => close ctx (logged ++ [apology e])
                  end
              end
          end
      | _ => {| after := ctx; sent := [AnswerCallback];
                raised := Some (IndexError "list index out of range") |}
      end
  end.

End Sending.

(** A transport that delivers everything. *)
Definition delivers : out -> option exn := fun _ => None.

(** A chat that blocked the bot while its resume was in the making: the
    document cannot be sent, nor can any message after it. *)
Definition blocked : exn := OtherError "Telegram server says - Forbidden: bot was blocked by the user".

Definition blocking : backend :=
  {| pdf_output := fun _ _ => None;
     docx_save := fun _ _ => None;
     send_document := fun _ _ => Some blocked;
     os_remove := fun _ => None;
     me_username := "resume_builder_bot" |}.

Definition refuses_after_notice (x : out) : option exn :=
  match x with
  | AnswerCallback => None
  | Answer text _ =>
      if PyStr.startswith "⏳ Processing your resume" text then None else Some blocked
  | _ => Some blocked
  end.


(** A transport that takes the answer to the callback and refuses every
    message: the chat blocked the bot before the button was pressed. *)
Definition refuses_messages (x : out) : option exn :=
  match x with
  | AnswerCallback => None
  | _ => Some blocked
  end.

(** * Properties *)

(** ** Strings *)

Section StringFacts.

Import PyStr.

Lemma append_nil_l (a : string) : "" +:+ a = a.
Proof. reflexivity. Qed.

Lemma append_cons (x : ascii) (a b : string) : String x a +:+ b = String x (a +:+ b).
Proof. reflexivity. Qed.

Lemma append_assoc (a b c : string) : (a +:+ b) +:+ c = a +:+ (b +:+ c).
Proof.
  induction a as [|x a IH]; [done |].
  by rewrite !append_cons, IH.
Qed.

Lemma append_nil_r (a : string) : a +:+ "" = a.
Proof.
  induction a as [|x a IH]; [done |].
  by rewrite append_cons, IH.
Qed.

Lemma split_cons (sep : ascii) (s : string) :
  ∃ h t, split sep s = h :: t.
Proof.
  destruct s as [|c s]; simpl; [by eauto |].
  destruct (Ascii.eqb c sep); [by eauto |].
  destruct (split sep s); eauto.
Qed.

(** Every separator starts a new field: nothing is merged or lost. *)
Lemma split_length (sep : ascii) (s : string) :
  length (split sep s) = S (count_char sep s).
Proof.
  induction s as [|c s IH]; simpl; [done |].
  destruct (Ascii.eqb c sep); simpl; [by rewrite IH |].
  destruct (split_cons sep s) as (h & t & E).
  rewrite E in IH |- *. simpl in *. done.
Qed.

Lemma split_no_sep (sep : ascii) (s : string) :
  Forall (fun x => count_char sep x = 0) (split sep s).
Proof.
  induction s as [|c s IH]; simpl; [by repeat constructor |].
  destruct (Ascii.eqb c sep) eqn:E; [by constructor |].
  destruct (split_cons sep s) as (h & t & Hs).
  rewrite Hs in IH |- *.
  inversion IH as [|? ? Hh Ht]; subst.
  constructor; [| done]. simpl. by rewrite E.
Qed.

(** Joining the fields with the separator gives the input back. *)
Lemma join_split (sep : ascii) (s : string) :
  join (String sep "") (split sep s) = s.
Proof.
  unfold join. induction s as [|c s IH]; simpl; [done |].
  destruct (split_cons sep s) as (h & t & Hs).
  destruct (Ascii.eqb_spec c sep) as [-> | Hne].
  - rewrite Hs in IH |- *. simpl in *. by rewrite IH.
  - rewrite Hs in IH |- *. destruct t; simpl in *; by rewrite <- IH.
Qed.

Lemma splitn_cons (sep : ascii) (n : nat) (s : string) :
  ∃ h t, splitn sep n s = h :: t.
Proof.
  destruct s as [|c s]; simpl; [by eauto |].
  destruct (Ascii.eqb c sep); [destruct n; by eauto |].
  destruct (splitn sep n s); eauto.
Qed.

(** [split(sep, n)] cuts at the first [n] separators only. *)
Lemma splitn_length (sep : ascii) (n : nat) (s : string) :
  length (splitn sep n s) = S (Nat.min n (count_char sep s)).
Proof.
  revert n. induction s as [|c s IH]; intros n; simpl; [by rewrite Nat.min_0_r |].
  destruct (Ascii.eqb c sep); simpl.
  - destruct n; simpl; [done | by rewrite IH].
  - destruct (splitn_cons sep n s) as (h & t & E).
    specialize (IH n). rewrite E in IH |- *. simpl in *. done.
Qed.

Lemma lstrip_first (s : string) (c : ascii) :
  first_char (lstrip s) = Some c → is_space c = false.
Proof.
  induction s as [|x s IH]; simpl; [done |].
  destruct (is_space x) eqn:E; [done |].
  simpl. by intros [= <-].
Qed.

Lemma rstrip_first (s : string) (c : ascii) :
  first_char (rstrip s) = Some c → first_char s = Some c.
Proof.
  destruct s as [|x s]; simpl; [done |].
  destruct (rstrip s); [destruct (is_space x) |]; simpl; done.
Qed.

Lemma rstrip_last (s : string) (c : ascii) :
  last_char (rstrip s) = Some c → is_space c = false.
Proof.
  induction s as [|x s IH]; simpl; [done |].
  destruct (rstrip s) as [|y r] eqn:E.
  - destruct (is_space x) eqn:Ex; simpl; [done |]. by intros [= <-].
  - intros H. apply IH. exact H.
Qed.

(** [strip] leaves no white space at either end. *)
Lemma strip_trimmed (s : string) : trimmed (strip s) = true.
Proof.
  unfold trimmed, strip.
  destruct (first_char (rstrip (lstrip s))) as [a|] eqn:Ha; [| done].
  destruct (last_char (rstrip (lstrip s))) as [b|] eqn:Hb; [| done].
  apply rstrip_first, lstrip_first in Ha. apply rstrip_last in Hb.
  by rewrite Ha, Hb.
Qed.

Lemma lstrip_count (a : ascii) (s : string) :
  count_char a (lstrip s) ≤ count_char a s.
Proof.
  induction s as [|x s IH]; simpl; [done |].
  destruct (is_space x); simpl; lia.
Qed.

Lemma rstrip_count (a : ascii) (s : string) :
  count_char a (rstrip s) ≤ count_char a s.
Proof.
  induction s as [|x s IH]; simpl; [done |].
  destruct (rstrip s) as [|y r].
  - destruct (is_space x); simpl in *; lia.
  - change (count_char a (String x (String y r)))
      with ((if Ascii.eqb x a then 1 else 0) + count_char a (String y r)).
    lia.
Qed.

Lemma strip_count (a : ascii) (s : string) :
  count_char a (strip s) ≤ count_char a s.
Proof.
  unfold strip. etrans; [apply rstrip_count | apply lstrip_count].
Qed.

Lemma strip_idemp (s : string) : strip (strip s) = strip s.
Proof.
  assert (Hl : ∀ t, trimmed t = true → lstrip t = t).
  { intros [|x t] H; simpl; [done |].
    destruct (is_space x) eqn:E; [exfalso | done].
    unfold trimmed in H. cbn [first_char] in H.
    destruct (last_char (String x t)) eqn:L.
    - rewrite E in H. simpl in H. done.
    - clear H E. revert x L.
      induction t as [|y t IH]; intros x L; simpl in L; [done |].
      by eapply IH. }
  assert (Hr : ∀ t, (∀ c, last_char t = Some c → is_space c = false) → rstrip t = t).
  { induction t as [|x t IH]; simpl; [done |]. intros H.
    destruct t as [|y t].
    - simpl. by rewrite (H x eq_refl).
    - rewrite IH; [done |]. intros c Hc. apply H. exact Hc. }
  pose proof (strip_trimmed s) as Ht.
  unfold strip at 1. rewrite (Hl _ Ht). apply Hr.
  intros c. unfold strip. apply rstrip_last.
Qed.

(** A string with a given prefix is the prefix followed by a rest. *)
Lemma startswith_split (p s : string) :
  startswith p s = true ↔ ∃ rest, s = p +:+ rest.
Proof.
  revert s. induction p as [|x p IH]; intros s; simpl.
  - split; [by eauto | done].
  - destruct s as [|y s]; [split; [done | by intros [? ?]] |].
    destruct (Ascii.eqb_spec x y) as [-> | Hne]; simpl.
    + rewrite IH. split; intros [rest E]; exists rest.
      * by rewrite append_cons, E.
      * rewrite append_cons in E. congruence.
    + split; [done | intros [rest E]]. rewrite append_cons in E. congruence.
Qed.

End StringFacts.

(** ** The renderers on a completed record *)

Section Rendering.

Variable r : SessionRecord.

Lemma completed_template : getitem (completed r) "template" = ret (VStr (templateId r)).
Proof. reflexivity. Qed.
Lemma completed_name : getitem (completed r) "name" = ret (VStr (fullName r)).
Proof. reflexivity. Qed.
Lemma completed_email : getitem (completed r) "email" = ret (VStr (r_email r)).
Proof. reflexivity. Qed.
Lemma completed_phone : getitem (completed r) "phone" = ret (VStr (r_phone r)).
Proof. reflexivity. Qed.
Lemma completed_summary : getitem (completed r) "summary" = ret (VStr (summary_of r)).
Proof. reflexivity. Qed.
Lemma completed_experience :
  getitem (completed r) "experience" = ret (VList (r_experience r)).
Proof. reflexivity. Qed.
Lemma completed_education :
  getitem (completed r) "education" = ret (VList (r_education r)).
Proof. reflexivity. Qed.
Lemma completed_enhanced :
  getitem (completed r) "enhanced_skills" = ret (VList (enhance_skills (r_skills r))).
Proof. reflexivity. Qed.
Lemma completed_projects :
  getitem (completed r) "projects" = ret (VList (r_projects r)).
Proof. reflexivity. Qed.
Lemma completed_skills : getitem (completed r) "skills" = ret (VList (r_skills r)).
Proof. reflexivity. Qed.
Lemma completed_format : getitem (completed r) "format" = ret (VStr (outputFormat r)).
Proof. reflexivity. Qed.

End Rendering.

Lemma bind_ret {A B} (a : A) (k : A → res B) : Py.bind (ret a) k = k a.
Proof. reflexivity. Qed.

Create Rewrite HintDb completed.

#[local] Hint Rewrite completed_template completed_name completed_email
  completed_phone completed_summary completed_experience completed_education
  completed_enhanced completed_projects completed_skills completed_format
  @bind_ret : completed.

Section PdfText.

Variable bf : string.

Lemma pdf_header_text (tf name contact : string) :
  foldl pdf_step (0, [])
    [AddPage; SetFont tf "B" 16; Cell 0 10 name 0 1 "C";
     SetFont bf "" 10; Cell 0 5 contact 0 1 "C"; Ln 5]
  = (10, [(name, contact +:+ PyStr.nl)]).
Proof. reflexivity. Qed.

Lemma pdf_heading_text (tf title : string) (n : nat) secs :
  foldl pdf_step (n, secs) (pdf_heading tf bf title) = (10, (title, "") :: secs).
Proof. reflexivity. Qed.

Lemma pdf_paragraph_text (txt h b : string) (k : nat) secs :
  foldl pdf_step (10, (h, b) :: secs) [MultiCell 0 5 txt; Ln k]
  = (10, (h, b +:+ txt +:+ PyStr.nl) :: secs).
Proof. reflexivity. Qed.

Lemma pdf_experience_text (items : list string) (h b : string) secs :
  foldl pdf_step (10, (h, b) :: secs) (concat (pdf_experience bf <$> items))
  = (10, (h, b +:+ concat_text (experience_text <$> omap experience_fields items)) :: secs).
Proof.
  revert b. induction items as [|x items IH]; intros b; simpl.
  - by rewrite append_nil_r.
  - rewrite foldl_app. unfold pdf_experience at 1.
    destruct (experience_fields x) as [[[[p c] d] e]|]; simpl; [| apply IH].
    rewrite IH. unfold experience_text at 2. by rewrite !append_assoc.
Qed.

Lemma pdf_education_text (items : list string) (h b : string) secs :
  foldl pdf_step (10, (h, b) :: secs) (concat (pdf_education bf <$> items))
  = (10, (h, b +:+ concat_text (education_text <$> omap education_fields items)) :: secs).
Proof.
  revert b. induction items as [|x items IH]; intros b; simpl.
  - by rewrite append_nil_r.
  - rewrite foldl_app. unfold pdf_education at 1.
    destruct (education_fields x) as [[[d i] y]|]; simpl; [| apply IH].
    rewrite IH. unfold education_text at 2. by rewrite !append_assoc.
Qed.

Lemma pdf_project_text (items : list string) (h b : string) secs :
  foldl pdf_step (10, (h, b) :: secs) (concat (pdf_project bf <$> items))
  = (10, (h, b +:+ concat_text (project_text <$> omap project_fields items)) :: secs).
Proof.
  revert b. induction items as [|x items IH]; intros b; simpl.
  - by rewrite append_nil_r.
  - rewrite foldl_app. unfold pdf_project at 1.
    destruct (project_fields x) as [[n d]|]; simpl; [| apply IH].
    rewrite IH. unfold project_text at 2. by rewrite !append_assoc.
Qed.

End PdfText.

Lemma docx_experience_text (items : list string) (h b : string) secs :
  foldl docx_step ((h, b) :: secs) (concat (docx_experience <$> items))
  = (h, b +:+ concat_text (experience_text <$> omap experience_fields items)) :: secs.
Proof.
  revert b. induction items as [|x items IH]; intros b; simpl.
  - by rewrite append_nil_r.
  - rewrite foldl_app. unfold docx_experience at 1.
    destruct (experience_fields x) as [[[[p c] d] e]|]; simpl; [| apply IH].
    rewrite IH. unfold experience_text at 2.
    by rewrite ?append_nil_l, !append_assoc.
Qed.

Lemma docx_education_text (items : list string) (h b : string) secs :
  foldl docx_step ((h, b) :: secs) (concat (docx_education <$> items))
  = (h, b +:+ concat_text (education_text <$> omap education_fields items)) :: secs.
Proof.
  revert b. induction items as [|x items IH]; intros b; simpl.
  - by rewrite append_nil_r.
  - rewrite foldl_app. unfold docx_education at 1.
    destruct (education_fields x) as [[[d i] y]|]; simpl; [| apply IH].
    rewrite IH. unfold education_text at 2.
    by rewrite ?append_nil_l, !append_assoc.
Qed.

Lemma docx_project_text (items : list string) (h b : string) secs :
  foldl docx_step ((h, b) :: secs) (concat (docx_project <$> items))
  = (h, b +:+ concat_text (project_text <$> omap project_fields items)) :: secs.
Proof.
  revert b. induction items as [|x items IH]; intros b; simpl.
  - by rewrite append_nil_r.
  - rewrite foldl_app. unfold docx_project at 1.
    destruct (project_fields x) as [[n d]|]; simpl; [| apply IH].
    rewrite IH. unfold project_text at 2.
    by rewrite ?append_nil_l, !append_assoc.
Qed.


(** The PDF of a completed record: the renderer returns, and its text is
    the specification's sections under upper-case titles. *)
Lemma pdf_document_completed (r : SessionRecord) :
  ∃ calls,
    pdf_document (completed r)
    = inr ("resume_" +:+ PyStr.lower (PyStr.replace " " "_" (fullName r)) +:+ ".pdf",
           calls)
    ∧ pdf_text calls = resume_sections PyStr.upper r.
Proof.
  unfold pdf_document.
  autorewrite with completed.
  unfold file_stem, text_arg, iter, Py.join. autorewrite with completed.
  unfold truthy, resume_sections, pdf_text.
  destruct (r_projects r) as [|p ps] eqn:Hp.
  - rewrite (bool_decide_eq_true_2 _ eq_refl). cbn [negb].
    autorewrite with completed. eexists; split; [reflexivity |].
    rewrite !foldl_app, pdf_header_text, pdf_heading_text, pdf_paragraph_text,
      pdf_heading_text, pdf_experience_text, pdf_heading_text, pdf_education_text,
      pdf_heading_text, pdf_paragraph_text.
    reflexivity.
  - rewrite bool_decide_eq_false_2 by done. cbn [negb].
    autorewrite with completed. eexists; split; [reflexivity |].
    rewrite !foldl_app, pdf_header_text, pdf_heading_text, pdf_paragraph_text,
      pdf_heading_text, pdf_experience_text, pdf_heading_text, pdf_education_text,
      pdf_heading_text, pdf_paragraph_text, pdf_heading_text, pdf_project_text.
    reflexivity.
Qed.

Lemma bind_accept {B} (calls : list docx_call) (k : list docx_call → res B) :
  Py.bind (accept calls) k
  = if forallb call_accepted calls then k calls else raise xml_refusal.
Proof. unfold accept. by destruct (forallb call_accepted calls). Qed.

(** For a completed record the DOCX renderer makes the calls of
    [docx_layout], or raises at the first text python-docx refuses. *)
Lemma docx_document_layout (r : SessionRecord) :
  docx_document (completed r)
  = if forallb call_accepted (docx_layout r)
    then inr (file_name r ".docx", docx_layout r)
    else raise xml_refusal.
Proof.
  unfold docx_document, docx_layout, file_name.
  autorewrite with completed.
  unfold file_stem, text_arg, iter, Py.join. autorewrite with completed.
  repeat (first [rewrite bind_accept | rewrite bind_ret
                 | rewrite completed_email | rewrite completed_phone
                 | rewrite completed_summary | rewrite completed_experience
                 | rewrite completed_education | rewrite completed_enhanced
                 | rewrite completed_projects];
          cbn beta iota delta [text_arg iter Py.join]).
  unfold truthy.
  destruct (r_projects r) as [|p ps] eqn:Hp.
  - rewrite (bool_decide_eq_true_2 _ eq_refl). cbn [negb].
    repeat (first [rewrite bind_accept | rewrite bind_ret]; cbn beta).
    rewrite !forallb_app.
    repeat match goal with
           | |- context [forallb call_accepted ?l] =>
               destruct (forallb call_accepted l); cbn [andb]; try reflexivity
           end.
  - rewrite bool_decide_eq_false_2 by done. cbn [negb].
    repeat (first [rewrite bind_accept | rewrite bind_ret]; cbn beta).
    rewrite !forallb_app.
    repeat match goal with
           | |- context [forallb call_accepted ?l] =>
               destruct (forallb call_accepted l); cbn [andb]; try reflexivity
           end.
Qed.

Lemma xml_text_app (s t : string) :
  xml_text (s +:+ t) = xml_text s && xml_text t.
Proof.
  induction s as [|c s IH]; [done |].
  rewrite append_cons. cbn [xml_text]. by rewrite IH, andb_assoc.
Qed.

Lemma xml_text_join (l : list string) :
  xml_text (PyStr.join "" l) = forallb xml_text l.
Proof.
  unfold PyStr.join. induction l as [|x l IH]; [done |].
  cbn [forallb]. rewrite <- IH. destruct l as [|y l].
  - cbn [String.concat forallb]. by rewrite andb_true_r.
  - change (String.concat "" (x :: y :: l)) with (x +:+ "" +:+ String.concat "" (y :: l)).
    by rewrite append_nil_l, xml_text_app.
Qed.

Lemma xml_sections_add_text (txt : string) (secs : list (string * string)) :
  xml_sections (add_text txt secs) = xml_sections secs && xml_text txt.
Proof.
  unfold xml_sections.
  destruct secs as [|[h b] secs]; cbn [add_text forallb fst snd xml_text].
  - by rewrite andb_true_r.
  - rewrite xml_text_app.
    destruct (xml_text h), (xml_text b), (xml_text txt), (forallb _ secs); reflexivity.
Qed.

Lemma accepted_step (secs : list (string * string)) (c : docx_call) :
  xml_sections (docx_step secs c) = xml_sections secs && call_accepted c.
Proof.
  destruct c as [t level | t runs]; cbn [docx_step call_accepted].
  - unfold xml_sections. cbn [forallb fst snd xml_text].
    destruct (xml_text t), (forallb _ secs); reflexivity.
  - rewrite xml_sections_add_text, !xml_text_app, xml_text_join.
    change (xml_text PyStr.nl) with true. rewrite andb_true_r.
    f_equal. f_equal. induction runs as [|x runs IH]; [done |].
    cbn [fmap list_fmap forallb]. by rewrite <- IH.
Qed.

Lemma accepted_calls (calls : list docx_call) (secs : list (string * string)) :
  xml_sections (foldl docx_step secs calls)
  = xml_sections secs && forallb call_accepted calls.
Proof.
  revert secs. induction calls as [|c calls IH]; intros secs; cbn [foldl forallb].
  - by rewrite andb_true_r.
  - by rewrite IH, accepted_step, andb_assoc.
Qed.

Lemma xml_sections_reverse (secs : list (string * string)) :
  xml_sections (reverse secs) = xml_sections secs.
Proof.
  unfold xml_sections. induction secs as [|s secs IH]; [done |].
  rewrite reverse_cons, forallb_app, IH. cbn [forallb].
  by rewrite andb_true_r, andb_comm.
Qed.

(** python-docx accepts the calls of a document exactly when no title and
    no text of the document has a character it refuses. *)
Lemma accepted_text (calls : list docx_call) :
  forallb call_accepted calls = xml_sections (docx_text calls).
Proof.
  unfold docx_text. by rewrite xml_sections_reverse, accepted_calls.
Qed.

Lemma docx_layout_text (r : SessionRecord) :
  docx_text (docx_layout r) = resume_sections id r.
Proof.
  unfold docx_layout, resume_sections, docx_text, contact_line, format_value.
  destruct (r_projects r) as [|p ps] eqn:Hp.
  - rewrite !foldl_app. cbn [foldl docx_step add_text].
    rewrite docx_experience_text, docx_education_text.
    reflexivity.
  - rewrite !foldl_app. generalize (p :: ps) as items. intros items.
    cbn [foldl docx_step add_text].
    rewrite docx_experience_text, docx_education_text, docx_project_text.
    reflexivity.
Qed.

(** The DOCX file of a completed record: the renderer raises when a text of
    the document has a character python-docx refuses; otherwise it returns,
    and the text of the file is the specification's sections under the
    titles as written. *)
Lemma docx_document_completed (r : SessionRecord) :
  ∃ calls,
    docx_document (completed r)
    = (if xml_sections (resume_sections id r)
       then inr (file_name r ".docx", calls)
       else inl xml_refusal)
    ∧ docx_text calls = resume_sections id r.
Proof.
  exists (docx_layout r). split; [| apply docx_layout_text].
  by rewrite docx_document_layout, accepted_text, docx_layout_text.
Qed.

(** ** Skill enhancement *)

Lemma common_skills_nodup : NoDup common_skills.
Proof. apply (bool_decide_unpack _). by vm_compute. Qed.

(** The loop from any point on: [added] is what the loop has appended so
    far, none of it among the fall-back entries still to come. *)
Lemma enhance_fold (skills added todo : list string) :
  NoDup todo →
  (∀ x, x ∈ added → x ∉ todo) →
  foldl enhance_step (skills ++ added) todo
  = skills ++ added
    ++ take (8 - length (skills ++ added)) (filter (fun x => x ∉ skills) todo).
Proof.
  revert added. induction todo as [|c todo IH]; intros added Hnd Hdis.
  - cbn [foldl]. by rewrite filter_nil, take_nil, app_nil_r.
  - apply NoDup_cons in Hnd as [Hc Hnd]. cbn [foldl].
    assert (Hca : c ∉ added).
    { intros Hin. apply (Hdis c Hin). by left. }
    assert (Hrest : ∀ x, x ∈ added → x ∉ todo).
    { intros x Hx Hin. apply (Hdis x Hx). by right. }
    unfold enhance_step at 2.
    destruct (decide (c ∈ skills)) as [Hin | Hout].
    + rewrite bool_decide_eq_false_2 by (rewrite elem_of_app; tauto).
      cbn [andb]. rewrite filter_cons_False by tauto. by apply IH.
    + rewrite bool_decide_eq_true_2 by (rewrite elem_of_app; tauto).
      rewrite filter_cons_True by done. cbn [andb].
      destruct (Nat.ltb_spec (length (skills ++ added)) 8) as [Hlt | Hge].
      * rewrite <- (assoc_L (++)). rewrite IH; [| done |].
        -- destruct (8 - length (skills ++ added)) as [|k] eqn:Hk; [lia |].
           rewrite !length_app in *. cbn [length take].
           replace (8 - (length skills + (length added + 1))) with k by lia.
           by rewrite <- (assoc_L (++)).
        -- intros x [Hx | Hx%list_elem_of_singleton]%elem_of_app; [by apply Hrest |].
           by subst.
      * rewrite IH by done.
        replace (8 - length (skills ++ added)) with 0 by lia. done.
Qed.

(** [enhance_skills] in closed form. *)
Lemma enhance_skills_closed (skills : list string) :
  enhance_skills skills
  = skills ++ take (8 - length skills) (filter (fun x => x ∉ skills) common_skills).
Proof.
  unfold enhance_skills.
  destruct (Nat.ltb_spec (length skills) 8) as [Hlt | Hge].
  - pose proof (enhance_fold skills [] common_skills common_skills_nodup) as H.
    rewrite app_nil_r in H. rewrite H; [done |].
    intros x Hx. by apply not_elem_of_nil in Hx.
  - replace (8 - length skills) with 0 by lia. by rewrite take_0, app_nil_r.
Qed.


(** C2, as stated, fails: a list of nine skills comes back as it is, nine
    long, so the length is neither capped at 8 nor [min(8, ...)]. *)
Lemma enhance_skills_nine_uncapped :
  enhance_skills nine_skills = nine_skills
  ∧ length (enhance_skills nine_skills) = 9
  ∧ 8 < length (enhance_skills nine_skills).
Proof. vm_compute. repeat split; lia. Qed.

(** C2 (amended): the result is the input followed by the first
    [8 - |skills|] fall-back entries that the input does not contain, in
    fall-back order; its length is [max(|skills|, min(8, |skills| + extra))],
    so at most 8 only for inputs of at most 8 skills; the appended entries
    are a subsequence of the fall-back list, pairwise distinct and absent
    from the input. *)
Theorem enhance_skills_spec (skills : list string) :
  let extra := filter (fun x => x ∉ skills) common_skills in
  let appended := drop (length skills) (enhance_skills skills) in
  enhance_skills skills = skills ++ appended
  ∧ appended = take (8 - length skills) extra
  ∧ length (enhance_skills skills)
    = Nat.max (length skills) (Nat.min 8 (length skills + length extra))
  ∧ length skills ≤ length (enhance_skills skills)
  ∧ skills `prefix_of` enhance_skills skills
  ∧ appended `sublist_of` common_skills
  ∧ NoDup appended
  ∧ Forall (fun x => x ∉ skills) appended.
Proof.
  intros extra appended.
  assert (Happ : appended = take (8 - length skills) extra).
  { unfold appended. rewrite enhance_skills_closed. apply drop_app_length. }
  assert (Hsub : appended `sublist_of` extra).
  { rewrite Happ. apply sublist_take. }
  assert (Hextra : extra `sublist_of` common_skills) by apply sublist_filter.
  split_and!.
  - rewrite Happ. apply enhance_skills_closed.
  - done.
  - rewrite enhance_skills_closed, length_app, length_take. fold extra. lia.
  - rewrite enhance_skills_closed, length_app. lia.
  - rewrite enhance_skills_closed. by apply prefix_app_r.
  - by etrans.
  - eapply sublist_NoDup; [apply common_skills_nodup | by etrans].
  - rewrite Happ. apply Forall_take, Forall_forall.
    intros x Hx. by apply list_elem_of_filter in Hx as [? _].
Qed.

(** ** Skill enhancement on list objects *)

Lemma heap_extend_spec (q : nat) (todo l : list string) (h : gmap nat (list string)) :
  h !! q = Some l →
  Heap.extend q todo h = Some (<[q := foldl enhance_step l todo]> h).
Proof.
  revert l h. induction todo as [|c todo IH]; intros l h Hq; simpl.
  - by rewrite insert_id.
  - unfold Heap.wants, Heap.append. rewrite Hq. simpl.
    unfold enhance_step at 2.
    destruct (bool_decide (c ∉ l) && (length l <? 8)); simpl.
    + rewrite (IH (l ++ [c])) by apply lookup_insert_eq.
      by rewrite insert_insert_eq.
    + by apply IH.
Qed.

Lemma heap_enhance_skills_eq (p : nat) (l : list string) (h : gmap nat (list string)) :
  h !! p = Some l →
  Heap.enhance_skills p h
  = Some (fresh (dom h), <[fresh (dom h) := enhance_skills l]> h).
Proof.
  intros Hp. unfold Heap.enhance_skills, Heap.copy, enhance_skills.
  generalize common_skills as todo. intros todo.
  rewrite Hp. simpl. rewrite lookup_insert_eq. simpl.
  destruct (length l <? 8); [| done].
  rewrite (heap_extend_spec _ _ l) by apply lookup_insert_eq.
  simpl. by rewrite insert_insert_eq.
Qed.

(** C10: [enhance_skills] returns a new list object and leaves every
    object that existed before the call, the caller's list among them, as it
    was; the new object holds what the value-level function computes. *)
Theorem enhance_skills_frame (p : nat) (l : list string) (h : gmap nat (list string)) :
  h !! p = Some l →
  ∃ q h',
    Heap.enhance_skills p h = Some (q, h')
    ∧ q ≠ p
    ∧ h !! q = None
    ∧ h' !! p = Some l
    ∧ h' !! q = Some (enhance_skills l)
    ∧ ∀ p', p' ≠ q → h' !! p' = h !! p'.
Proof.
  intros Hp. exists (fresh (dom h)), (<[fresh (dom h) := enhance_skills l]> h).
  assert (Hfresh : h !! fresh (dom h) = None).
  { apply not_elem_of_dom, is_fresh. }
  assert (Hne : fresh (dom h) ≠ p) by congruence.
  split_and!.
  - by apply heap_enhance_skills_eq.
  - done.
  - done.
  - by rewrite lookup_insert_ne.
  - apply lookup_insert_eq.
  - intros p' Hp'. by rewrite lookup_insert_ne.
Qed.

Lemma enhance_skills_frame_witness :
  ∃ q h',
    Heap.enhance_skills 0 {[ 0 := ["Python"; "Teamwork"] ]} = Some (q, h')
    ∧ q ≠ 0
    ∧ ({[ 0 := ["Python"; "Teamwork"] ]} : gmap nat (list string)) !! q = None
    ∧ h' !! 0 = Some ["Python"; "Teamwork"]
    ∧ h' !! q = Some (enhance_skills ["Python"; "Teamwork"])
    ∧ ∀ p', p' ≠ q → h' !! p' = ({[ 0 := ["Python"; "Teamwork"] ]} : gmap nat (list string)) !! p'.
Proof.
  apply (enhance_skills_frame 0 ["Python"; "Teamwork"]).
  reflexivity.
Defined.

(** ** Job recommendations *)

Section Jobs.

Implicit Types (skills : list string) (job : string) (acc : gset string).

(** A job is in the set after scanning the keys for one skill iff it was
    there before or a keyword contained in the skill maps to it. *)
Lemma scan_table_elem (table : list (string * list string)) (skill_lower : string) acc job :
  job ∈ foldl (fun acc kv =>
                 if PyStr.contains kv.1 skill_lower then acc ∪ list_to_set kv.2 else acc)
              acc table
  ↔ job ∈ acc
    ∨ ∃ kv, kv ∈ table ∧ PyStr.contains kv.1 skill_lower = true ∧ job ∈ kv.2.
Proof.
  revert acc. induction table as [|kv table IH]; intros acc; simpl.
  - split; [by left | intros [? | (kv & Hkv & _)]; [done | by apply not_elem_of_nil in Hkv]].
  - rewrite IH. destruct (PyStr.contains kv.1 skill_lower) eqn:E.
    + rewrite elem_of_union, elem_of_list_to_set. split.
      * intros [[? | ?] | (kv' & ? & ? & ?)]; [by left | right | right].
        -- exists kv. split_and!; [by left | done | done].
        -- exists kv'. split_and!; [by right | done | done].
      * intros [? | (kv' & [-> | ?]%elem_of_cons & ? & ?)].
        -- by left; left.
        -- by left; right.
        -- right. by exists kv'.
    + split.
      * intros [? | (kv' & ? & ? & ?)]; [by left | right].
        exists kv'. split_and!; [by right | done | done].
      * intros [? | (kv' & [-> | ?]%elem_of_cons & ? & ?)]; [by left | congruence |].
        right. by exists kv'.
Qed.

Lemma recommended_jobs_fold skills acc job :
  job ∈ foldl (fun acc skill => scan_keys (PyStr.lower skill) acc) acc skills
  ↔ job ∈ acc
    ∨ ∃ skill kv, skill ∈ skills ∧ kv ∈ skill_to_jobs
                  ∧ PyStr.contains kv.1 (PyStr.lower skill) = true ∧ job ∈ kv.2.
Proof.
  revert acc. induction skills as [|s skills IH]; intros acc; simpl.
  - split; [by left | intros [? | (s & kv & Hs & _)]; [done | by apply not_elem_of_nil in Hs]].
  - rewrite IH. unfold scan_keys. rewrite scan_table_elem. split.
    + intros [[? | (kv & ? & ? & ?)] | (s' & kv & ? & ? & ? & ?)].
      * by left.
      * right. exists s, kv. split_and!; [by left | done..].
      * right. exists s', kv. split_and!; [by right | done..].
    + intros [? | (s' & kv & [-> | ?]%elem_of_cons & ? & ? & ?)].
      * by left; left.
      * left; right. by exists kv.
      * right. by exists s', kv.
Qed.

(** The set the loops build is the union over every skill and every
    keyword contained in the case-folded skill. *)
Lemma recommended_jobs_elem skills job :
  job ∈ recommended_jobs skills
  ↔ ∃ skill kv, skill ∈ skills ∧ kv ∈ skill_to_jobs
                ∧ PyStr.contains kv.1 (PyStr.lower skill) = true ∧ job ∈ kv.2.
Proof.
  unfold recommended_jobs. rewrite recommended_jobs_fold.
  split; [intros [H | H]; [by apply not_elem_of_empty in H | done] | by right].
Qed.

(** No keyword maps to "Software Developer", which the default list has. *)
Lemma software_developer_unmapped :
  Forall (fun kv : string * list string => "Software Developer" ∉ kv.2) skill_to_jobs.
Proof. apply (bool_decide_unpack _). by vm_compute. Qed.

End Jobs.

(** C9: the result lists exactly the union of the job titles of every
    keyword contained in a case-folded skill, without repeats, and is the
    default list of five exactly when that union is empty; for
    [["Python"; "SQL"]] it has both "Python Developer" and
    "Database Administrator". *)
Theorem get_job_recommendations_spec (skills : list string) :
  (∀ job, job ∈ recommended_jobs skills
          ↔ ∃ skill kv, skill ∈ skills ∧ kv ∈ skill_to_jobs
                        ∧ PyStr.contains kv.1 (PyStr.lower skill) = true ∧ job ∈ kv.2)
  ∧ (recommended_jobs skills = ∅ ↔ get_job_recommendations skills = default_jobs)
  ∧ (recommended_jobs skills ≠ ∅ →
     NoDup (get_job_recommendations skills)
     ∧ ∀ job, job ∈ get_job_recommendations skills ↔ job ∈ recommended_jobs skills)
  ∧ length default_jobs = 5
  ∧ "Python Developer" ∈ get_job_recommendations ["Python"; "SQL"]
  ∧ "Database Administrator" ∈ get_job_recommendations ["Python"; "SQL"].
Proof.
  split_and!.
  - apply recommended_jobs_elem.
  - unfold get_job_recommendations. split.
    + intros ->. by rewrite bool_decide_eq_true_2.
    + case_bool_decide as Hempty; [done |]. intros Heq. exfalso.
      assert (Hin : "Software Developer" ∈ recommended_jobs skills).
      { apply elem_of_elements. rewrite Heq. apply (bool_decide_unpack _). by vm_compute. }
      apply recommended_jobs_elem in Hin as (s & kv & _ & Hkv & _ & Hjob).
      pose proof software_developer_unmapped as Hno.
      rewrite Forall_forall in Hno. by apply (Hno kv).
  - intros Hne. unfold get_job_recommendations.
    rewrite bool_decide_eq_false_2 by done. split.
    + apply NoDup_elements.
    + intros job. apply elem_of_elements.
  - reflexivity.
  - apply (bool_decide_unpack _). by vm_compute.
  - apply (bool_decide_unpack _). by vm_compute.
Qed.

(** ** The summary *)

Lemma join_first_three (skills : list string) :
  PyStr.join ", " (take 3 skills) = skills_phrase skills.
Proof. destruct skills as [|a [|b [|c l]]]; reflexivity. Qed.

(** C7: for a record with name [n] and skills [s] the summary is the
    template sentence with the first three skills, in listed order, joined
    by ", " (fewer when fewer exist). *)
Theorem generate_summary_spec (data : gmap string value) (n : string) (s : list string) :
  data !! "name" = Some (VStr n) →
  data !! "skills" = Some (VList s) →
  generate_summary data
  = inr (n +:+ " is a dedicated professional with expertise in "
         +:+ skills_phrase s
         +:+ ". Seeking new opportunities to apply these skills in a challenging environment.").
Proof.
  intros Hn Hs. unfold generate_summary, getitem. rewrite Hn, Hs.
  cbn [Py.bind ret slice_to Py.join format_value].
  by rewrite join_first_three.
Qed.

Lemma generate_summary_spec_witness :
  generate_summary (session_data ada)
  = inr ("Ada Lovelace" +:+ " is a dedicated professional with expertise in "
         +:+ skills_phrase ["Python"; "SQL"]
         +:+ ". Seeking new opportunities to apply these skills in a challenging environment.").
Proof.
  apply (generate_summary_spec (session_data ada) "Ada Lovelace" ["Python"; "SQL"]);
    reflexivity.
Defined.

Example generate_summary_ada :
  generate_summary (session_data ada)
  = inr "Ada Lovelace is a dedicated professional with expertise in Python, SQL. Seeking new opportunities to apply these skills in a challenging environment.".
Proof. reflexivity. Qed.

(** The derived fields of a record of answers are those of [completed]. *)
Lemma derive_session_data (r : SessionRecord) :
  derive (session_data r) = inr (completed r).
Proof. reflexivity. Qed.

(** ** The selection steps *)

Lemma split_prefix (sep : ascii) (p rest : string) :
  PyStr.count_char sep p = 0 →
  PyStr.split sep (p +:+ String sep rest) = p :: PyStr.split sep rest.
Proof.
  induction p as [|c p IH]; intros Hc.
  - rewrite append_nil_l. simpl. by rewrite Ascii.eqb_refl.
  - rewrite append_cons. simpl in *.
    destruct (Ascii.eqb c sep); [done |].
    by rewrite IH.
Qed.

Section Steps.

Variable io : backend.
Variable d : gmap string value.

Lemma template_step (cb : string) :
  feed_update io {| fsm_state := Some ResumeForm.template; fsm_data := d |} (CallbackQuery cb)
  = if PyStr.startswith "template:" cb
    then ({| fsm_state := Some ResumeForm.format;
             fsm_data := <["template" := VStr (selected cb)]> d |},
          [AnswerCallback; Answer "Please select the output format:" format_keyboard])
    else ({| fsm_state := Some ResumeForm.template; fsm_data := d |}, []).
Proof.
  unfold feed_update. cbn [fsm_state].
  destruct (PyStr.startswith "template:" cb) eqn:E.
  - rewrite bool_decide_eq_true_2 by done. cbn [andb].
    apply startswith_split in E as [rest ->].
    unfold process_template, selected.
    change ("template:" +:+ rest) with ("template" +:+ String ":" rest).
    rewrite split_prefix by reflexivity.
    destruct (split_cons ":" rest) as (h & t & ->). reflexivity.
  - cbn [andb]. rewrite bool_decide_eq_false_2 by done.
    by rewrite andb_false_r.
Qed.

Lemma format_step (cb : string) :
  feed_update io {| fsm_state := Some ResumeForm.format; fsm_data := d |} (CallbackQuery cb)
  = if PyStr.startswith "format:" cb
    then (idle,
          [AnswerCallback;
           Answer "⏳ Processing your resume... This may take a moment." []]
          ++ attempt_render io (<["format" := VStr (selected cb)]> d)
          ++ [Answer "Type /build to create another resume or /start to see the welcome message again." []])
    else ({| fsm_state := Some ResumeForm.format; fsm_data := d |}, []).
Proof.
  unfold feed_update. cbn [fsm_state].
  rewrite (bool_decide_eq_false_2 (Some ResumeForm.format = Some ResumeForm.template)) by done.
  rewrite andb_false_r.
  destruct (PyStr.startswith "format:" cb) eqn:E.
  - rewrite bool_decide_eq_true_2 by done. cbn [andb].
    apply startswith_split in E as [rest ->].
    unfold process_format_delivered, selected.
    change ("format:" +:+ rest) with ("format" +:+ String ":" rest).
    rewrite split_prefix by reflexivity.
    destruct (split_cons ":" rest) as (h & t & ->). reflexivity.
  - reflexivity.
Qed.

End Steps.

(** C1, as stated, fails: callback data with the prefix but an identifier
    outside the closed set advances the Template step, and a dialogue with
    such identifiers at both steps is rendered. *)
Lemma selection_outside_closed_sets :
  fsm_state (feed_update quiet
               {| fsm_state := Some ResumeForm.template; fsm_data := ∅ |}
               (CallbackQuery "template:fancy")).1
  = Some ResumeForm.format
  ∧ fsm_data (feed_update quiet
                {| fsm_state := Some ResumeForm.template; fsm_data := ∅ |}
                (CallbackQuery "template:fancy")).1 !! "template"
    = Some (VStr "fancy")
  ∧ ("fancy" ∉ TEMPLATES.*1)
  ∧ ("odt" ∉ FORMATS)
  ∧ length (List.filter is_document (feed_all quiet idle unlisted_dialogue).2) = 1.
Proof.
  split_and!.
  - reflexivity.
  - reflexivity.
  - apply (bool_decide_unpack _). by vm_compute.
  - apply (bool_decide_unpack _). by vm_compute.
  - by vm_compute.
Qed.

(** C1 (amended): at the Template and Format steps callback data without
    the step's prefix leaves state and data as they are; data with the prefix
    always advances, and the identifier after the prefix is stored unchecked.
    Every button of the two keyboards carries the prefix and an identifier of
    the closed set, so selections made from the keyboards keep the template
    and the format inside their enumerations. *)
Theorem selection_steps (io : backend) (d : gmap string value) (cb : string) :
  feed_update io {| fsm_state := Some ResumeForm.template; fsm_data := d |} (CallbackQuery cb)
  = (if PyStr.startswith "template:" cb
     then ({| fsm_state := Some ResumeForm.format;
              fsm_data := <["template" := VStr (selected cb)]> d |},
           [AnswerCallback; Answer "Please select the output format:" format_keyboard])
     else ({| fsm_state := Some ResumeForm.template; fsm_data := d |}, []))
  ∧ feed_update io {| fsm_state := Some ResumeForm.format; fsm_data := d |} (CallbackQuery cb)
    = (if PyStr.startswith "format:" cb
       then (idle,
             [AnswerCallback;
              Answer "⏳ Processing your resume... This may take a moment." []]
             ++ attempt_render io (<["format" := VStr (selected cb)]> d)
             ++ [Answer "Type /build to create another resume or /start to see the welcome message again." []])
       else ({| fsm_state := Some ResumeForm.format; fsm_data := d |}, []))
  ∧ Forall (fun b => PyStr.startswith "template:" (button_data b) = true
                     ∧ selected (button_data b) ∈ TEMPLATES.*1)
           (concat template_keyboard)
  ∧ Forall (fun b => PyStr.startswith "format:" (button_data b) = true
                     ∧ selected (button_data b) ∈ FORMATS)
           (concat format_keyboard).
Proof.
  split_and!.
  - apply template_step.
  - apply format_step.
  - repeat constructor; apply (bool_decide_unpack _); by vm_compute.
  - repeat constructor; apply (bool_decide_unpack _); by vm_compute.
Qed.
(** ** The Format step *)

Lemma job_message_intro (jobs : list string) :
  ∃ rest, job_message jobs
          = "💼 Based on your skills, here are some job recommendations:" +:+ rest.
Proof.
  unfold job_message. generalize (take 5 jobs) as l. intros l.
  assert (H : ∀ acc rest0,
             acc = "💼 Based on your skills, here are some job recommendations:" +:+ rest0 →
             ∃ rest, foldl (fun msg job => msg +:+ job_line job) acc l
                     = "💼 Based on your skills, here are some job recommendations:" +:+ rest).
  { induction l as [|j l IH]; intros acc rest0 ->; cbn [foldl]; [by eauto |].
    eapply IH. by rewrite append_assoc. }
  eapply H. reflexivity.
Qed.

Lemma job_message_no_apology (jobs : list string) :
  is_apology (Answer (job_message jobs) []) = false.
Proof. destruct (job_message_intro jobs) as [rest ->]. reflexivity. Qed.

Lemma idle_ignores_callbacks (io : backend) (cb : string) :
  feed_update io idle (CallbackQuery cb) = (idle, []).
Proof.
  unfold feed_update, idle. cbn [fsm_state].
  rewrite !bool_decide_eq_false_2 by done. by rewrite !andb_false_r.
Qed.

Section TryBlock.

Variable io : backend.
Variable refuses : out → option exn.

(** The [try] body sends nothing and raises, or sends the document and
    raises, or sends the document and the job list and returns. *)
Lemma render_and_deliver_shape (data : gmap string value) :
  (∃ e, render_and_deliver io refuses data = ([], inl e))
  ∨ (∃ e f doc, render_and_deliver io refuses data
                = ([AnswerDocument f doc "🎉 Here's your resume!"], inl e))
  ∨ (∃ f doc jobs, render_and_deliver io refuses data
                   = ([AnswerDocument f doc "🎉 Here's your resume!";
                       Answer (job_message jobs) []], inr tt)).
Proof.
  unfold render_and_deliver.
  destruct (derive data) as [e | data']; [left; by eexists |].
  cbn [lift act_bind app].
  destruct (getitem data' "format") as [e | fmt]; [left; by eexists |].
  cbn [lift act_bind app].
  destruct (if bool_decide (fmt = VStr "pdf")
            then generate_pdf_resume io data'
            else generate_docx_resume io data') as [e | [f doc]];
    [left; by eexists |].
  cbn [lift act_bind app fst snd].
  destruct (send_document io f doc) as [e |]; [left; by eexists |].
  cbn [check lift act_bind app send ret].
  destruct (os_remove io f) as [e |]; [right; left; by do 3 eexists |].
  cbn [check lift act_bind app send ret].
  destruct (getitem data' "skills") as [e | sk]; [right; left; by do 3 eexists |].
  cbn [lift act_bind app send ret].
  destruct (iter sk) as [e | items]; [right; left; by do 3 eexists |].
  cbn [lift act_bind app send ret]. unfold deliver.
  destruct (refuses (Answer (job_message (get_job_recommendations items)) [])) as [e |].
  - right; left. by do 3 eexists.
  - right; right. by do 3 eexists.
Qed.

Lemma render_and_deliver_messages (data : gmap string value) :
  List.filter is_apology (render_and_deliver io refuses data).1 = []
  ∧ length (List.filter is_document (render_and_deliver io refuses data).1) ≤ 1.
Proof.
  destruct (render_and_deliver_shape data)
    as [(e & ->) | [(e & f & doc & ->) | (f & doc & jobs & ->)]]; cbn [fst].
  - split; [reflexivity | cbn; lia].
  - split; [reflexivity | cbn; lia].
  - split; [| cbn; lia].
    cbn [List.filter]. by rewrite job_message_no_apology.
Qed.

Lemma close_spec (ctx : FSMContext) (so_far : list out) :
  after (close refuses ctx so_far) = idle
  ∧ raised (close refuses ctx so_far) = refuses closing_notice
  ∧ List.filter is_apology (sent (close refuses ctx so_far))
    = List.filter is_apology so_far
  ∧ List.filter is_document (sent (close refuses ctx so_far))
    = List.filter is_document so_far.
Proof.
  unfold close. destruct (refuses closing_notice) as [e |]; cbn [after raised sent].
  - done.
  - rewrite !List.filter_app. cbn. by rewrite !app_nil_r.
Qed.

(** The handler on callback data with the prefix, when its own three sends
    are delivered. *)
Lemma process_format_delivered_sends (d : gmap string value) (rest : string) :
  refuses AnswerCallback = None →
  refuses processing_notice = None →
  (∀ e, refuses (apology e) = None) →
  process_format io refuses ("format:" +:+ rest)
    {| fsm_state := Some ResumeForm.format; fsm_data := d |}
  = let data := <["format" := VStr (selected ("format:" +:+ rest))]> d in
    let ctx := {| fsm_state := Some ResumeForm.format; fsm_data := data |} in
    let attempt := render_and_deliver io refuses data in
    close refuses ctx
      (([AnswerCallback; processing_notice] ++ attempt.1)
       ++ match attempt.2 with
          | inl e => [LogError ("Error generating resume: " +:+ exn_str e); apology e]
          | inr _ => []
          end).
Proof.
  intros Hcb Hnotice Hap. unfold process_format, selected. rewrite Hcb.
  change ("format:" +:+ rest) with ("format" +:+ String ":" rest).
  rewrite split_prefix by reflexivity.
  destruct (split_cons ":" rest) as (h & t & ->).
  cbn [nth update_data fsm_state fsm_data]. rewrite Hnotice. cbn zeta.
  destruct (render_and_deliver io refuses (<["format" := VStr h]> d)) as [o [e | []]];
    cbn [fst snd].
  - rewrite Hap. by rewrite <- !app_assoc.
  - by rewrite app_nil_r.
Qed.

End TryBlock.

(** On a transport that delivers everything the handler is the one the
    dispatcher runs. *)
Lemma render_and_deliver_delivers (io : backend) (data : gmap string value) :
  render_and_deliver io delivers data = render_and_send io data.
Proof. reflexivity. Qed.

Lemma process_format_delivers (io : backend) (data : string) (ctx : FSMContext) :
  (after (process_format io delivers data ctx),
   sent (process_format io delivers data ctx))
  = process_format_delivered io data ctx.
Proof.
  unfold process_format, process_format_delivered, attempt_render, close, delivers.
  destruct (PyStr.split ":" data) as [|x [|format_type l]]; [done | done |].
  cbn zeta. rewrite render_and_deliver_delivers.
  destruct (render_and_send io _) as [o [e | []]]; cbn [fst snd after sent].
  - unfold report, apology, processing_notice, closing_notice.
    by rewrite <- !app_assoc.
  - unfold processing_notice, closing_notice. by rewrite app_nil_r, <- !app_assoc.
Qed.

(** C4, as stated, fails: the reset is a statement after the [try]
    statement, and the apology is itself a message to send.  A chat that
    blocks the bot once the processing notice is out gets no document, the
    apology cannot be sent either, and the handler ends before the reset:
    the state is still Format and the answers are still stored.  The same
    when the renderer itself raises (a name message without text) and the
    apology cannot be sent, and when the processing notice, which is sent
    before the [try] statement, is refused.  A later /build starts over the
    old data. *)
Lemma format_step_reset_skipped :
  fsm_state (after (process_format blocking refuses_after_notice "format:pdf"
                      (feed_all blocking idle ada_dialogue).1))
  = Some ResumeForm.format
  ∧ fsm_data (after (process_format blocking refuses_after_notice "format:pdf"
                       (feed_all blocking idle ada_dialogue).1)) !! "name"
    = Some (VStr "Ada Lovelace")
  ∧ raised (process_format blocking refuses_after_notice "format:pdf"
              (feed_all blocking idle ada_dialogue).1)
    = Some blocked
  ∧ List.filter is_apology
      (sent (process_format blocking refuses_after_notice "format:pdf"
               (feed_all blocking idle ada_dialogue).1))
    = []
  ∧ fsm_state (after (process_format quiet refuses_after_notice "format:pdf"
                        (feed_all quiet idle (take 9 photo_dialogue)).1))
    = Some ResumeForm.format
  ∧ fsm_data (after (process_format quiet refuses_after_notice "format:pdf"
                       (feed_all quiet idle (take 9 photo_dialogue)).1)) !! "email"
    = Some (VStr "ada@example.org")
  ∧ sent (process_format quiet refuses_after_notice "format:pdf"
            (feed_all quiet idle (take 9 photo_dialogue)).1)
    = [AnswerCallback; processing_notice;
       LogError "Error generating resume: 'NoneType' object has no attribute 'replace'"]
  ∧ after (process_format quiet refuses_messages "format:pdf"
             (feed_all quiet idle ada_dialogue).1)
    = {| fsm_state := Some ResumeForm.format;
         fsm_data := <["format" := VStr "pdf"]>
                       (fsm_data (feed_all quiet idle ada_dialogue).1) |}
  ∧ sent (process_format quiet refuses_messages "format:pdf"
            (feed_all quiet idle ada_dialogue).1)
    = [AnswerCallback]
  ∧ fsm_data (feed_update blocking
                (after (process_format blocking refuses_after_notice "format:pdf"
                          (feed_all blocking idle ada_dialogue).1))
                (Message (Some "/build"))).1 !! "name"
    = Some (VStr "Ada Lovelace").
Proof. split_and!; by vm_compute. Qed.

(** C4 (amended): when the handler's own messages are delivered (the answer
    to the callback, the processing notice and, after an exception, the
    apology), the Format step ends with no state and no data whatever the
    renderer and the backend do; an exception raised in the [try] block,
    while the document is produced or sent, is answered by exactly one
    apology that quotes it; at most one document is sent; only the closing
    message can still fail; later callbacks find no handler (nothing is
    retried), and the next /build starts on empty data. *)
Theorem format_step_resets (io : backend) (refuses : out → option exn)
    (d : gmap string value) (rest : string) :
  refuses AnswerCallback = None →
  refuses processing_notice = None →
  (∀ e, refuses (apology e) = None) →
  after (process_format io refuses ("format:" +:+ rest)
           {| fsm_state := Some ResumeForm.format; fsm_data := d |})
  = idle
  ∧ List.filter is_apology
      (sent (process_format io refuses ("format:" +:+ rest)
               {| fsm_state := Some ResumeForm.format; fsm_data := d |}))
    = match (render_and_deliver io refuses
               (<["format" := VStr (selected ("format:" +:+ rest))]> d)).2 with
      | inl e => [apology e]
      | inr _ => []
      end
  ∧ length (List.filter is_document
              (sent (process_format io refuses ("format:" +:+ rest)
                       {| fsm_state := Some ResumeForm.format; fsm_data := d |}))) ≤ 1
  ∧ raised (process_format io refuses ("format:" +:+ rest)
              {| fsm_state := Some ResumeForm.format; fsm_data := d |})
    = refuses closing_notice
  ∧ fsm_state idle = None
  ∧ fsm_data idle = ∅
  ∧ (∀ cb, feed_update io idle (CallbackQuery cb) = (idle, []))
  ∧ feed_update io idle (Message (Some "/build"))
    = ({| fsm_state := Some ResumeForm.name; fsm_data := ∅ |},
       [Answer "What's your full name?" []]).
Proof.
  intros Hcb Hnotice Hap.
  rewrite (process_format_delivered_sends io refuses d rest Hcb Hnotice Hap). cbn zeta.
  set (data := <["format" := VStr (selected ("format:" +:+ rest))]> d).
  destruct (close_spec refuses {| fsm_state := Some ResumeForm.format; fsm_data := data |}
              (([AnswerCallback; processing_notice]
                ++ (render_and_deliver io refuses data).1)
               ++ match (render_and_deliver io refuses data).2 with
                  | inl e => [LogError ("Error generating resume: " +:+ exn_str e);
                              apology e]
                  | inr _ => []
                  end)) as (Hafter & Hraised & Hap' & Hdoc).
  destruct (render_and_deliver_messages io refuses data) as [Ha Hd].
  split_and!.
  - exact Hafter.
  - rewrite Hap', !List.filter_app, Ha.
    destruct (render_and_deliver io refuses data).2 as [e | ?]; reflexivity.
  - rewrite Hdoc, !List.filter_app, !length_app.
    destruct (render_and_deliver io refuses data).2 as [e | ?]; cbn; cbn in Hd; lia.
  - exact Hraised.
  - reflexivity.
  - reflexivity.
  - apply idle_ignores_callbacks.
  - reflexivity.
Qed.

Lemma format_step_resets_witness :
  after (process_format full_disk delivers ("format:" +:+ "pdf")
           {| fsm_state := Some ResumeForm.format; fsm_data := session_data ada |})
  = idle
  ∧ List.filter is_apology
      (sent (process_format full_disk delivers ("format:" +:+ "pdf")
               {| fsm_state := Some ResumeForm.format; fsm_data := session_data ada |}))
    = match (render_and_deliver full_disk delivers
               (<["format" := VStr (selected ("format:" +:+ "pdf"))]> (session_data ada))).2 with
      | inl e => [apology e]
      | inr _ => []
      end
  ∧ length (List.filter is_document
              (sent (process_format full_disk delivers ("format:" +:+ "pdf")
                       {| fsm_state := Some ResumeForm.format;
                          fsm_data := session_data ada |}))) ≤ 1
  ∧ raised (process_format full_disk delivers ("format:" +:+ "pdf")
              {| fsm_state := Some ResumeForm.format; fsm_data := session_data ada |})
    = delivers closing_notice
  ∧ fsm_state idle = None
  ∧ fsm_data idle = ∅
  ∧ (∀ cb, feed_update full_disk idle (CallbackQuery cb) = (idle, []))
  ∧ feed_update full_disk idle (Message (Some "/build"))
    = ({| fsm_state := Some ResumeForm.name; fsm_data := ∅ |},
       [Answer "What's your full name?" []]).
Proof.
  apply (format_step_resets full_disk delivers (session_data ada) "pdf");
    [reflexivity | reflexivity | intros e; reflexivity].
Defined.

(** A message without text as the name: the renderer raises, the user is
    told once, and the chat is back at the start with no data. *)
Example render_failure_is_reported :
  (feed_all quiet idle photo_dialogue).1 = idle
  ∧ List.filter is_apology (feed_all quiet idle photo_dialogue).2
    = [apology (AttributeError "'NoneType' object has no attribute 'replace'")]
  ∧ List.filter is_document (feed_all quiet idle photo_dialogue).2 = [].
Proof. by vm_compute. Qed.

(** The same when the library cannot write the file. *)
Example output_failure_is_reported :
  (feed_all full_disk idle (ada_dialogue ++ [CallbackQuery "format:pdf"])).1 = idle
  ∧ List.filter is_apology
      (feed_all full_disk idle (ada_dialogue ++ [CallbackQuery "format:pdf"])).2
    = [apology (OtherError "No space left on device")]
  ∧ List.filter is_document
      (feed_all full_disk idle (ada_dialogue ++ [CallbackQuery "format:pdf"])).2 = [].
Proof. by vm_compute. Qed.

(** ** Both renderers on one record *)

(** On a completed record each renderer makes a fixed sequence of calls and
    then writes the file.  The PDF renderer raises only what [pdf.output]
    raises; the DOCX renderer raises when python-docx refuses a text of the
    document, and otherwise only what [doc.save] raises.  The text of each
    document is the specification's list of sections. *)
Lemma rendered_completed (r : SessionRecord) :
  ∃ c1 c2,
    (∀ io, generate_pdf_resume io (completed r)
           = match pdf_output io (file_name r ".pdf") c1 with
             | Some e => inl e
             | None => inr (file_name r ".pdf", PdfDocument c1)
             end)
    ∧ (∀ io, generate_docx_resume io (completed r)
             = if xml_sections (resume_sections id r)
               then match docx_save io (file_name r ".docx") c2 with
                    | Some e => inl e
                    | None => inr (file_name r ".docx", DocxDocument c2)
                    end
               else inl xml_refusal)
    ∧ pdf_text c1 = resume_sections PyStr.upper r
    ∧ docx_text c2 = resume_sections id r.
Proof.
  destruct (pdf_document_completed r) as (c1 & Hp & Ht1).
  destruct (docx_document_completed r) as (c2 & Hd & Ht2).
  exists c1, c2. split_and!; [| | done | done].
  - intros io. unfold generate_pdf_resume. rewrite Hp. cbn [Py.bind fst snd].
    unfold file_name. by destruct (pdf_output io _ c1).
  - intros io. unfold generate_docx_resume. rewrite Hd.
    destruct (xml_sections (resume_sections id r)); [| reflexivity].
    cbn [Py.bind fst snd]. by destruct (docx_save io _ c2).
Qed.

Lemma resume_sections_titles (title : string → string) (r : SessionRecord) :
  (resume_sections title r).*1 = fullName r :: (title <$> section_titles r).
Proof.
  unfold resume_sections, section_titles.
  destruct (r_projects r); reflexivity.
Qed.





(** ** Projects *)

(** C8: the answer "skip" at the Projects step stores the empty list, and
    for a record without projects neither document has a Projects section:
    the sections of the PDF, and of the DOCX file whenever python-docx
    accepts its texts, are the header, the summary, experience, education
    and skills. *)
Theorem skip_omits_projects (io : backend) (d : gmap string value) (r : SessionRecord) :
  r_projects r = [] →
  feed_update io {| fsm_state := Some ResumeForm.projects; fsm_data := d |}
              (Message (Some "skip"))
  = ({| fsm_state := Some ResumeForm.template;
        fsm_data := <["projects" := VList []]> d |},
     [Answer "Please select a resume template:" template_keyboard])
  ∧ ∃ c1 c2,
      generate_pdf_resume io (completed r)
      = match pdf_output io (file_name r ".pdf") c1 with
        | Some e => inl e
        | None => inr (file_name r ".pdf", PdfDocument c1)
        end
      ∧ generate_docx_resume io (completed r)
        = (if xml_sections (resume_sections id r)
           then match docx_save io (file_name r ".docx") c2 with
                | Some e => inl e
                | None => inr (file_name r ".docx", DocxDocument c2)
                end
           else inl xml_refusal)
      ∧ (document_text (PdfDocument c1)).*1
        = [fullName r; "PROFESSIONAL SUMMARY"; "WORK EXPERIENCE"; "EDUCATION"; "SKILLS"]
      ∧ (document_text (DocxDocument c2)).*1
        = [fullName r; "Professional Summary"; "Work Experience"; "Education"; "Skills"].
Proof.
  intros Hp. split; [reflexivity |].
  destruct (rendered_completed r) as (c1 & c2 & H1 & H2 & Ht1 & Ht2).
  exists c1, c2. cbn [document_text]. rewrite Ht1, Ht2, !resume_sections_titles.
  unfold section_titles. rewrite Hp.
  split_and!; [apply H1 | apply H2 | reflexivity | reflexivity].
Qed.

Lemma skip_omits_projects_witness :
  feed_update quiet {| fsm_state := Some ResumeForm.projects; fsm_data := ∅ |}
              (Message (Some "skip"))
  = ({| fsm_state := Some ResumeForm.template;
        fsm_data := <["projects" := VList []]> ∅ |},
     [Answer "Please select a resume template:" template_keyboard])
  ∧ ∃ c1 c2,
      generate_pdf_resume quiet (completed ada)
      = match pdf_output quiet (file_name ada ".pdf") c1 with
        | Some e => inl e
        | None => inr (file_name ada ".pdf", PdfDocument c1)
        end
      ∧ generate_docx_resume quiet (completed ada)
        = (if xml_sections (resume_sections id ada)
           then match docx_save quiet (file_name ada ".docx") c2 with
                | Some e => inl e
                | None => inr (file_name ada ".docx", DocxDocument c2)
                end
           else inl xml_refusal)
      ∧ (document_text (PdfDocument c1)).*1
        = [fullName ada; "PROFESSIONAL SUMMARY"; "WORK EXPERIENCE"; "EDUCATION"; "SKILLS"]
      ∧ (document_text (DocxDocument c2)).*1
        = [fullName ada; "Professional Summary"; "Work Experience"; "Education"; "Skills"].
Proof. apply (skip_omits_projects quiet ∅ ada). reflexivity. Defined.

(** ** Field parsing *)

Lemma split_field_no_sep (sep : ascii) (s : string) (i : nat) :
  PyStr.count_char sep (PyStr.strip (nth i (PyStr.split sep s) "")) = 0.
Proof.
  assert (H : PyStr.count_char sep (nth i (PyStr.split sep s) "") = 0).
  { destruct (nth_in_or_default i (PyStr.split sep s) "") as [Hin | ->]; [| done].
    pose proof (split_no_sep sep s) as Hall. rewrite Forall_forall in Hall.
    apply Hall. by apply list_elem_of_In. }
  pose proof (strip_count sep (nth i (PyStr.split sep s) "")). lia.
Qed.

(** C5, as stated, fails: an empty segment is kept, as the empty string. *)
Lemma skills_keep_empty_segments :
  parse_skills "Python,,SQL" = ["Python"; ""; "SQL"]
  ∧ fsm_data (feed_update quiet
                {| fsm_state := Some ResumeForm.skills; fsm_data := ∅ |}
                (Message (Some "Python,,SQL"))).1 !! "skills"
    = Some (VList ["Python"; ""; "SQL"])
  ∧ "" ∈ parse_skills "Python,,SQL".
Proof.
  split_and!; [reflexivity | reflexivity |].
  apply (bool_decide_unpack _). by vm_compute.
Qed.

(** C5 (amended): the skills parser cuts the input at every comma and
    trims each segment; it keeps every segment, so the stored list has one
    entry per comma and one more, each without comma or surrounding white
    space, and an empty segment is stored as the empty string. *)
Theorem parse_skills_spec (s : string) (ctx : FSMContext) :
  length (parse_skills s) = S (PyStr.count_char "," s)
  ∧ (∀ i, parse_skills s !! i = PyStr.strip <$> (PyStr.split "," s !! i))
  ∧ PyStr.join "," (PyStr.split "," s) = s
  ∧ Forall (fun x => PyStr.trimmed x = true ∧ PyStr.count_char "," x = 0)
           (parse_skills s)
  ∧ PyStr.strip "" = ""
  ∧ (process_skills (Some s) ctx).1
    = set_state ResumeForm.projects (update_data "skills" (VList (parse_skills s)) ctx).
Proof.
  unfold parse_skills. split_and!.
  - by rewrite length_fmap, split_length.
  - intros i. apply list_lookup_fmap.
  - apply join_split.
  - apply Forall_fmap, Forall_forall. intros x Hx. cbn. split.
    + apply strip_trimmed.
    + pose proof (split_no_sep "," s) as Hall. rewrite Forall_forall in Hall.
      pose proof (strip_count "," x). specialize (Hall x Hx). cbn in Hall. lia.
  - reflexivity.
  - reflexivity.
Qed.

(** C6: an education line yields an entry iff it has a comma, that is at
    least two fields; the entry has three fields, the first three segments
    trimmed (the year empty when there are only two), none with white space
    at its ends or a comma; the PDF, and the DOCX file whenever python-docx
    accepts its texts (it raises [ValueError] otherwise), list exactly the
    entries parsed, in order; the example input gives one entry. *)
Theorem education_fields_spec (edu : string) (r : SessionRecord) :
  match education_fields edu with
  | None => PyStr.count_char "," edu = 0
  | Some (degree, institution, year) =>
      1 ≤ PyStr.count_char "," edu
      ∧ degree = PyStr.strip (nth 0 (PyStr.split "," edu) "")
      ∧ institution = PyStr.strip (nth 1 (PyStr.split "," edu) "")
      ∧ year = (if PyStr.count_char "," edu =? 1 then ""
                else PyStr.strip (nth 2 (PyStr.split "," edu) ""))
      ∧ Forall (fun x => PyStr.trimmed x = true ∧ PyStr.count_char "," x = 0)
               [degree; institution; year]
  end
  ∧ (∃ c1 c2,
       pdf_document (completed r) = inr (file_name r ".pdf", c1)
       ∧ docx_document (completed r)
         = (if xml_sections (resume_sections id r)
            then inr (file_name r ".docx", c2)
            else inl xml_refusal)
       ∧ pdf_text c1 !! 3
         = Some ("EDUCATION",
                 concat_text (education_text <$> omap education_fields (r_education r)))
       ∧ docx_text c2 !! 3
         = Some ("Education",
                 concat_text (education_text <$> omap education_fields (r_education r))))
  ∧ omap education_fields (PyStr.split "010" education_example)
    = [("BS Computer Science", "MIT", "2020")].
Proof.
  split_and!.
  - unfold education_fields. rewrite split_length.
    destruct (PyStr.count_char "," edu) as [|[|n]] eqn:Hc; cbn [Nat.leb Nat.ltb Nat.eqb].
    + done.
    + split_and!; [lia | done | done | done |].
      repeat constructor; try apply strip_trimmed; apply split_field_no_sep.
    + split_and!; [lia | done | done | done |].
      repeat constructor; try apply strip_trimmed; apply split_field_no_sep.
  - destruct (pdf_document_completed r) as (c1 & H1 & Ht1).
    destruct (docx_document_completed r) as (c2 & H2 & Ht2).
    exists c1, c2. rewrite Ht1, Ht2. split_and!; [apply H1 | apply H2 | done | done].
  - reflexivity.
Qed.

(** ** Sanity checks of the string functions *)

Example split_demo :
  PyStr.split "," "a, b,,c" = ["a"; " b"; ""; "c"]
  ∧ PyStr.split "," "" = [""]
  ∧ PyStr.splitn "," 1 "a,b,c" = ["a"; "b,c"]
  ∧ PyStr.splitn "," 3 "a,b,c,d,e" = ["a"; "b"; "c"; "d,e"]
  ∧ PyStr.strip "  x y  " = "x y"
  ∧ PyStr.contains "sql" "mysql db" = true
  ∧ PyStr.contains "java" "javascript" = true
  ∧ PyStr.lower "PyThon" = "python"
  ∧ PyStr.capitalize "professional" = "Professional"
  ∧ first_word "  /build now" = "/build".
Proof. repeat split; reflexivity. Qed.

Example enhance_demo :
  enhance_skills ["Python"; "Teamwork"]
  = ["Python"; "Teamwork"; "Problem Solving"; "Communication";
     "Time Management"; "Leadership"; "Critical Thinking"; "Adaptability"].
Proof. reflexivity. Qed.

Example template_keyboard_demo :
  template_keyboard
  = [[InlineKeyboardButton "Professional" "template:professional";
      InlineKeyboardButton "Creative" "template:creative"];
     [InlineKeyboardButton "Academic" "template:academic";
      InlineKeyboardButton "Technical" "template:technical"]].
Proof. reflexivity. Qed.

(** The worked dialogue stores the answers of [ada]. *)
Example ada_dialogue_data :
  (feed_all quiet idle (ada_dialogue ++ [CallbackQuery "format:pdf"])).1 = idle
  ∧ <["format" := VStr "pdf"]> (fsm_data (feed_all quiet idle ada_dialogue).1)
    = session_data ada.
Proof. split; [by vm_compute | apply (bool_decide_unpack _); by vm_compute]. Qed.

(** * Further properties of the dialogue and the derivations *)

(** ** The invariant of the dispatcher *)

Lemma well_formed_idle : well_formed idle.
Proof.
  split; [apply map_Forall_empty | intros s Hs; discriminate].
Qed.

Lemma answered_grows (s s' : ResumeForm.t) (k : string) (d : gmap string value) (v : value) :
  Forall (fun k => is_Some (d !! k)) (answered s) →
  answered s' ⊆ k :: answered s →
  Forall (fun k' => is_Some (<[k := v]> d !! k')) (answered s').
Proof.
  intros Hall Hsub. apply Forall_forall. intros k' Hk'.
  apply Hsub in Hk'. destruct (decide (k = k')) as [-> | Hne].
  - rewrite lookup_insert_eq. by eexists.
  - rewrite lookup_insert_ne by done.
    apply elem_of_cons in Hk' as [-> | Hk']; [done |].
    rewrite Forall_forall in Hall. by apply Hall.
Qed.

(** A handler that stores a value of the key's type and moves one step on. *)
Lemma well_formed_advance (ctx : FSMContext) (s s' : ResumeForm.t) (k : string) (v : value) :
  well_formed ctx →
  fsm_state ctx = Some s →
  key_type k v = true →
  answered s' ⊆ k :: answered s →
  well_formed (set_state s' (update_data k v ctx)).
Proof.
  intros [Hty Hans] Hs Hk Hsub. split; cbn [set_state update_data fsm_data fsm_state].
  - by apply map_Forall_insert_2.
  - intros s0 [= <-]. eapply answered_grows; [by apply Hans | done].
Qed.

Lemma well_formed_message (io : backend) (ctx : FSMContext)
    (text command_text : option string) :
  well_formed ctx → well_formed (feed_message io text command_text ctx).1.
Proof.
  intros Hwf. unfold feed_message.
  destruct (is_command io "start" command_text); [done |].
  destruct (is_command io "build" command_text).
  { destruct Hwf as [Hty _]. split; [done |].
    intros s [= <-]. constructor. }
  destruct (fsm_state ctx) as [[]|] eqn:Hs; try done.
  - eapply well_formed_advance; [done | done | by destruct text | apply (bool_decide_unpack _); by vm_compute].
  - eapply well_formed_advance; [done | done | by destruct text | apply (bool_decide_unpack _); by vm_compute].
  - eapply well_formed_advance; [done | done | by destruct text | apply (bool_decide_unpack _); by vm_compute].
  - destruct text as [t|]; [| done].
    eapply well_formed_advance; [done | done | done | apply (bool_decide_unpack _); by vm_compute].
  - destruct text as [t|]; [| done].
    eapply well_formed_advance; [done | done | done | apply (bool_decide_unpack _); by vm_compute].
  - destruct text as [t|]; [| done].
    eapply well_formed_advance; [done | done | done | apply (bool_decide_unpack _); by vm_compute].
  - destruct text as [t|]; [| done]. unfold process_projects.
    destruct (String.eqb (PyStr.lower t) "skip");
      (eapply well_formed_advance; [done | done | done | apply (bool_decide_unpack _); by vm_compute]).
Qed.

Lemma well_formed_step (io : backend) (ctx : FSMContext) (u : update) :
  well_formed ctx → well_formed (feed_update io ctx u).1.
Proof.
  intros Hwf. destruct u as [text | caption | data]; unfold feed_update.
  - by apply well_formed_message.
  - by apply well_formed_message.
  - destruct (PyStr.startswith "template:" data
              && bool_decide (fsm_state ctx = Some ResumeForm.template)) eqn:E.
    + apply andb_true_iff in E as [_ Hs%bool_decide_eq_true_1].
      unfold process_template.
      destruct (PyStr.split ":" data) as [|? [|id ?]]; [done | done |].
      eapply well_formed_advance; [done | done | done | apply (bool_decide_unpack _); by vm_compute].
    + destruct (PyStr.startswith "format:" data
                && bool_decide (fsm_state ctx = Some ResumeForm.format)); [| done].
      unfold process_format_delivered.
      destruct (PyStr.split ":" data) as [|? [|id ?]]; [done | done |].
      apply well_formed_idle.
Qed.

Lemma feed_all_snoc (io : backend) (ctx : FSMContext) (us : list update) (u : update) :
  (feed_all io ctx (us ++ [u])).1 = (feed_update io (feed_all io ctx us).1 u).1.
Proof. unfold feed_all. by rewrite foldl_app. Qed.


(** ** The Format step after any dialogue *)

Lemma well_formed_lookup (ctx : FSMContext) (s : ResumeForm.t) (k : string) :
  well_formed ctx →
  fsm_state ctx = Some s →
  k ∈ answered s →
  ∃ v, fsm_data ctx !! k = Some v ∧ key_type k v = true.
Proof.
  intros [Hty Hans] Hs Hk.
  specialize (Hans s Hs). rewrite Forall_forall in Hans.
  destruct (Hans k Hk) as [v Hv]. exists v. split; [done |].
  by apply (Hty k v).
Qed.

Ltac lookup_answer H Hs k v Hv Ht :=
  destruct (well_formed_lookup _ _ k H Hs) as (v & Hv & Ht);
  [apply (bool_decide_unpack _); by vm_compute |];
  vm_compute in Ht.

Ltac through_inserts :=
  unfold getitem;
  repeat first [rewrite lookup_insert_eq | rewrite lookup_insert_ne by done].

Section Documents.

Variable data : gmap string value.
Variables (t name email phone : value) (sm : string).
Variables exps edus enh projs : list string.

Hypothesis Htemplate : data !! "template" = Some t.
Hypothesis Hname : data !! "name" = Some name.
Hypothesis Hemail : data !! "email" = Some email.
Hypothesis Hphone : data !! "phone" = Some phone.
Hypothesis Hsummary : data !! "summary" = Some (VStr sm).
Hypothesis Hexperience : data !! "experience" = Some (VList exps).
Hypothesis Heducation : data !! "education" = Some (VList edus).
Hypothesis Henhanced : data !! "enhanced_skills" = Some (VList enh).
Hypothesis Hprojects : data !! "projects" = Some (VList projs).

(** With every key present and the name a [str], the PDF renderer returns,
    and the DOCX renderer returns or raises python-docx's refusal; with
    [None] as the name both raise at [replace]. *)
Lemma documents_of_answers :
  match name with
  | VStr n =>
      (∃ c, pdf_document data
            = inr ("resume_" +:+ PyStr.lower (PyStr.replace " " "_" n) +:+ ".pdf", c))
      ∧ ((∃ c, docx_document data
               = inr ("resume_" +:+ PyStr.lower (PyStr.replace " " "_" n) +:+ ".docx", c))
         ∨ docx_document data = inl xml_refusal)
  | _ =>
      pdf_document data = no_attribute name "replace"
      ∧ docx_document data = no_attribute name "replace"
  end.
Proof.
  unfold pdf_document, docx_document, getitem.
  rewrite Htemplate, Hname, Hemail, Hphone, Hsummary, Hexperience, Heducation,
    Henhanced, Hprojects.
  destruct name as [| n | l]; cbn [Py.bind ret file_stem text_arg iter Py.join];
    [done | | done].
  split.
  { destruct (truthy (VList projs)); cbn [Py.bind ret iter]; by eexists. }
  repeat (rewrite bind_accept;
          destruct (forallb call_accepted _); [| by right];
          cbn [Py.bind ret iter]).
  destruct (truthy (VList projs)); cbn [Py.bind ret iter]; [| left; by eexists].
  repeat (rewrite bind_accept;
          destruct (forallb call_accepted _); [| by right];
          cbn [Py.bind ret iter]).
  left; by eexists.
Qed.

End Documents.


Lemma render_and_deliver_answers (io : backend) (refuses : out → option exn)
    (ctx : FSMContext) (fid : string) :
  well_formed ctx →
  fsm_state ctx = Some ResumeForm.format →
  match fsm_data ctx !! "name" with
  | Some (VStr n) =>
      (∃ e, (render_and_deliver io refuses (<["format" := VStr fid]> (fsm_data ctx))).2
            = inl e
            ∧ (backend_raised io e
               ∨ (fid ≠ "pdf" ∧ e = xml_refusal)
               ∨ (∃ jobs, refuses (Answer (job_message jobs) []) = Some e))
            ∧ length (render_and_deliver io refuses
                        (<["format" := VStr fid]> (fsm_data ctx))).1 ≤ 1)
      ∨ (∃ f doc sk jobs,
           fsm_data ctx !! "skills" = Some (VList sk)
           ∧ jobs ≡ₚ get_job_recommendations sk
           ∧ ((∃ c, doc = PdfDocument c ∧ fid = "pdf"
                    ∧ f = "resume_" +:+ PyStr.lower (PyStr.replace " " "_" n) +:+ ".pdf")
              ∨ (∃ c, doc = DocxDocument c ∧ fid ≠ "pdf"
                      ∧ f = "resume_" +:+ PyStr.lower (PyStr.replace " " "_" n) +:+ ".docx"))
           ∧ render_and_deliver io refuses (<["format" := VStr fid]> (fsm_data ctx))
             = ([AnswerDocument f doc "🎉 Here's your resume!";
                 Answer (job_message jobs) []], inr tt))
  | _ =>
      render_and_deliver io refuses (<["format" := VStr fid]> (fsm_data ctx))
      = ([], inl (AttributeError "'NoneType' object has no attribute 'replace'"))
  end.
Proof.
  intros Hwf Hs.
  lookup_answer Hwf Hs "name" vn Hn Tn.
  lookup_answer Hwf Hs "email" ve He Te.
  lookup_answer Hwf Hs "phone" vp Hp Tp.
  lookup_answer Hwf Hs "education" ved Hed Ted.
  lookup_answer Hwf Hs "experience" vex Hex Tex.
  lookup_answer Hwf Hs "skills" vsk Hsk Tsk.
  lookup_answer Hwf Hs "projects" vpr Hpr Tpr.
  lookup_answer Hwf Hs "template" vt Ht Tt.
  destruct ved as [| | edus]; try done. destruct vex as [| | exps]; try done.
  destruct vsk as [| | sk]; try done. destruct vpr as [| | projs]; try done.
  rewrite Hn.
  unfold render_and_deliver, derive, generate_summary.
  through_inserts. rewrite Hn, Hsk.
  cbn [Py.bind ret slice_to Py.join lift act_bind app].
  through_inserts. rewrite Hsk.
  cbn [Py.bind ret call_enhance_skills lift act_bind app].
  through_inserts. cbn [Py.bind ret lift act_bind app].
  set (sm := format_value vn +:+ _).
  set (data' := <["enhanced_skills" := _]> _).
  assert (Hdocs := documents_of_answers data' vt vn ve vp sm exps edus
                     (enhance_skills sk) projs).
  unfold data' in Hdocs at 1 2 3 4 5 6 7 8 9.
  repeat (rewrite ?lookup_insert_eq, ?lookup_insert_ne in Hdocs by done).
  specialize (Hdocs Ht Hn He Hp eq_refl Hex Hed eq_refl Hpr).
  unfold generate_pdf_resume, generate_docx_resume.
  destruct vn as [| n | l]; [| | done].
  - destruct Hdocs as [-> ->].
    by destruct (bool_decide (VStr fid = VStr "pdf")).
  - destruct Hdocs as [(c1 & ->) Hdocx].
    case_bool_decide as Hf; cbn [Py.bind ret fst snd].
    + destruct (pdf_output io _ c1) as [e |] eqn:Hw; cbn [check Py.bind ret raise].
      { left. exists e. split_and!; [done | | cbn; lia].
        left. eexists; left; by eexists. }
      cbn [lift act_bind app fst snd].
      destruct (send_document io _ _) as [e |] eqn:Hsend; cbn [check Py.bind ret raise lift act_bind app].
      { left. exists e. split_and!; [done | | cbn; lia].
        left. eexists; right; right; left; by eexists. }
      cbn [send lift act_bind app ret].
      destruct (os_remove io _) as [e |] eqn:Hrm; cbn [check Py.bind ret raise lift act_bind app].
      { left. exists e. split_and!; [done | | cbn; lia].
        left. eexists; right; right; right; done. }
      through_inserts. rewrite Hsk. cbn [iter lift act_bind app ret send].
      unfold deliver.
      destruct (refuses (Answer (job_message (get_job_recommendations sk)) []))
        as [e |] eqn:Hjob.
      { left. exists e. split_and!; [done | | cbn; lia].
        right; right. by eexists. }
      right. do 2 eexists. exists sk, (get_job_recommendations sk).
      split_and!; [done | done | | reflexivity].
      left. eexists. split_and!; [done | congruence | done].
    + destruct Hdocx as [(c2 & ->) | ->]; cbn [Py.bind ret fst snd]; last first.
      { left. exists xml_refusal. split_and!; [done | | cbn; lia].
        right; left. split; [congruence | done]. }
      destruct (docx_save io _ c2) as [e |] eqn:Hw; cbn [check Py.bind ret raise].
      { left. exists e. split_and!; [done | | cbn; lia].
        left. eexists; right; left; by eexists. }
      cbn [lift act_bind app fst snd].
      destruct (send_document io _ _) as [e |] eqn:Hsend; cbn [check Py.bind ret raise lift act_bind app].
      { left. exists e. split_and!; [done | | cbn; lia].
        left. eexists; right; right; left; by eexists. }
      cbn [send lift act_bind app ret].
      destruct (os_remove io _) as [e |] eqn:Hrm; cbn [check Py.bind ret raise lift act_bind app].
      { left. exists e. split_and!; [done | | cbn; lia].
        left. eexists; right; right; right; done. }
      through_inserts. rewrite Hsk. cbn [iter lift act_bind app ret send].
      unfold deliver.
      destruct (refuses (Answer (job_message (get_job_recommendations sk)) []))
        as [e |] eqn:Hjob.
      { left. exists e. split_and!; [done | | cbn; lia].
        right; right. by eexists. }
      right. do 2 eexists. exists sk, (get_job_recommendations sk).
      split_and!; [done | done | | reflexivity].
      right. eexists. split_and!; [done | congruence | done].
Qed.

(** X2: when the Format step is reached, by whatever updates, every answer
    is in place.  If the name message had no text the renderer raises at
    [replace] and nothing is sent.  Otherwise the [try] block raises only
    what the backend raises (writing, sending or removing the file), what
    python-docx raises on a text it refuses (for an identifier other than
    "pdf"), or what sending the job message raises; and when nothing is
    raised the chat receives one document (the PDF when the identifier is
    "pdf", the DOCX file for any other identifier) named after the
    lower-cased name, followed by a message listing up to five of the jobs
    found for the skills as the user listed them, in an order that is left
    open. *)
Theorem format_step_outcome (io : backend) (refuses : out → option exn)
    (us : list update) (fid : string) :
  fsm_state (feed_all io idle us).1 = Some ResumeForm.format →
  match fsm_data (feed_all io idle us).1 !! "name" with
  | Some (VStr n) =>
      (∃ e, (render_and_deliver io refuses
               (<["format" := VStr fid]> (fsm_data (feed_all io idle us).1))).2 = inl e
            ∧ (backend_raised io e
               ∨ (fid ≠ "pdf" ∧ e = xml_refusal)
               ∨ (∃ jobs, refuses (Answer (job_message jobs) []) = Some e))
            ∧ length (render_and_deliver io refuses
                        (<["format" := VStr fid]> (fsm_data (feed_all io idle us).1))).1 ≤ 1)
      ∨ (∃ f doc sk jobs,
           fsm_data (feed_all io idle us).1 !! "skills" = Some (VList sk)
           ∧ jobs ≡ₚ get_job_recommendations sk
           ∧ ((∃ c, doc = PdfDocument c ∧ fid = "pdf"
                    ∧ f = "resume_" +:+ PyStr.lower (PyStr.replace " " "_" n) +:+ ".pdf")
              ∨ (∃ c, doc = DocxDocument c ∧ fid ≠ "pdf"
                      ∧ f = "resume_" +:+ PyStr.lower (PyStr.replace " " "_" n) +:+ ".docx"))
           ∧ render_and_deliver io refuses
               (<["format" := VStr fid]> (fsm_data (feed_all io idle us).1))
             = ([AnswerDocument f doc "🎉 Here's your resume!";
                 Answer (job_message jobs) []], inr tt))
  | _ =>
      render_and_deliver io refuses
        (<["format" := VStr fid]> (fsm_data (feed_all io idle us).1))
      = ([], inl (AttributeError "'NoneType' object has no attribute 'replace'"))
  end.
Proof.
  intros Hs. apply render_and_deliver_answers; [| done].
  clear Hs. induction us as [|u us IH] using rev_ind.
  - apply well_formed_idle.
  - rewrite feed_all_snoc. by apply well_formed_step.
Qed.

Lemma format_step_outcome_witness :
  match fsm_data (feed_all quiet idle ada_dialogue).1 !! "name" with
  | Some (VStr n) =>
      (∃ e, (render_and_deliver quiet delivers
               (<["format" := VStr "docx"]> (fsm_data (feed_all quiet idle ada_dialogue).1))).2
            = inl e
            ∧ (backend_raised quiet e
               ∨ ("docx" ≠ "pdf" ∧ e = xml_refusal)
               ∨ (∃ jobs, delivers (Answer (job_message jobs) []) = Some e))
            ∧ length (render_and_deliver quiet delivers
                        (<["format" := VStr "docx"]>
                           (fsm_data (feed_all quiet idle ada_dialogue).1))).1 ≤ 1)
      ∨ (∃ f doc sk jobs,
           fsm_data (feed_all quiet idle ada_dialogue).1 !! "skills" = Some (VList sk)
           ∧ jobs ≡ₚ get_job_recommendations sk
           ∧ ((∃ c, doc = PdfDocument c ∧ "docx" = "pdf"
                    ∧ f = "resume_" +:+ PyStr.lower (PyStr.replace " " "_" n) +:+ ".pdf")
              ∨ (∃ c, doc = DocxDocument c ∧ "docx" ≠ "pdf"
                      ∧ f = "resume_" +:+ PyStr.lower (PyStr.replace " " "_" n) +:+ ".docx"))
           ∧ render_and_deliver quiet delivers
               (<["format" := VStr "docx"]> (fsm_data (feed_all quiet idle ada_dialogue).1))
             = ([AnswerDocument f doc "🎉 Here's your resume!";
                 Answer (job_message jobs) []], inr tt))
  | _ =>
      render_and_deliver quiet delivers
        (<["format" := VStr "docx"]> (fsm_data (feed_all quiet idle ada_dialogue).1))
      = ([], inl (AttributeError "'NoneType' object has no attribute 'replace'"))
  end.
Proof. apply (format_step_outcome quiet delivers ada_dialogue "docx"). by vm_compute. Defined.

(** ** A dialogue from /build to the end *)

Lemma feed_all_outputs (io : backend) (us : list update) (ctx : FSMContext) (o : list out) :
  (foldl (fun acc u => let r := feed_update io acc.1 u in (r.1, acc.2 ++ r.2)) (ctx, o) us).1
  = (feed_all io ctx us).1.
Proof.
  unfold feed_all. revert ctx o. induction us as [|u us IH]; intros ctx o; [done |].
  cbn [foldl fst snd]. rewrite IH. symmetry. apply IH.
Qed.

Lemma feed_all_cons (io : backend) (ctx : FSMContext) (u : update) (us : list update) :
  (feed_all io ctx (u :: us)).1 = (feed_all io (feed_update io ctx u).1 us).1.
Proof. unfold feed_all at 1. cbn [foldl fst snd]. apply feed_all_outputs. Qed.

(** A message that is no command goes to the handler of the current step. *)
Lemma feed_plain (io : backend) (ctx : FSMContext) (text : option string) :
  plain io text = true →
  feed_update io ctx (Message text)
  = match fsm_state ctx with
    | Some ResumeForm.name => process_name text ctx
    | Some ResumeForm.email => process_email text ctx
    | Some ResumeForm.phone => process_phone text ctx
    | Some ResumeForm.education => process_education text ctx
    | Some ResumeForm.experience => process_experience text ctx
    | Some ResumeForm.skills => process_skills text ctx
    | Some ResumeForm.projects => process_projects text ctx
    | _ => (ctx, [])
    end.
Proof.
  unfold plain, feed_update, feed_message. intros [H1 H2]%andb_true_iff.
  apply negb_true_iff in H1, H2. by rewrite H1, H2.
Qed.

Lemma split_single (sep : ascii) (s : string) :
  PyStr.count_char sep s = 0 → PyStr.split sep s = [s].
Proof.
  induction s as [|c s IH]; [done |]. simpl.
  destruct (Ascii.eqb c sep); [done |]. intros H. by rewrite IH.
Qed.

Lemma selected_after_prefix (p id : string) :
  PyStr.count_char ":" p = 0 →
  PyStr.count_char ":" id = 0 →
  selected (p +:+ String ":" id) = id.
Proof.
  intros Hp Hid. unfold selected.
  by rewrite split_prefix, split_single.
Qed.

Section DialogueSteps.

Variable io : backend.
Variable d : gmap string value.

Lemma step_build (ctx : FSMContext) :
  (feed_update io ctx (Message (Some "/build"))).1
  = {| fsm_state := Some ResumeForm.name; fsm_data := fsm_data ctx |}.
Proof. reflexivity. Qed.

Lemma step_name (text : option string) :
  plain io text = true →
  (feed_update io {| fsm_state := Some ResumeForm.name; fsm_data := d |} (Message text)).1
  = {| fsm_state := Some ResumeForm.email; fsm_data := <["name" := text_value text]> d |}.
Proof. intros H. by rewrite feed_plain. Qed.

Lemma step_email (text : option string) :
  plain io text = true →
  (feed_update io {| fsm_state := Some ResumeForm.email; fsm_data := d |} (Message text)).1
  = {| fsm_state := Some ResumeForm.phone; fsm_data := <["email" := text_value text]> d |}.
Proof. intros H. by rewrite feed_plain. Qed.

Lemma step_phone (text : option string) :
  plain io text = true →
  (feed_update io {| fsm_state := Some ResumeForm.phone; fsm_data := d |} (Message text)).1
  = {| fsm_state := Some ResumeForm.education;
       fsm_data := <["phone" := text_value text]> d |}.
Proof. intros H. by rewrite feed_plain. Qed.

Lemma step_education (s : string) :
  plain io (Some s) = true →
  (feed_update io {| fsm_state := Some ResumeForm.education; fsm_data := d |}
               (Message (Some s))).1
  = {| fsm_state := Some ResumeForm.experience;
       fsm_data := <["education" := VList (PyStr.split "010" s)]> d |}.
Proof. intros H. by rewrite feed_plain. Qed.

Lemma step_experience (s : string) :
  plain io (Some s) = true →
  (feed_update io {| fsm_state := Some ResumeForm.experience; fsm_data := d |}
               (Message (Some s))).1
  = {| fsm_state := Some ResumeForm.skills;
       fsm_data := <["experience" := VList (PyStr.split "010" s)]> d |}.
Proof. intros H. by rewrite feed_plain. Qed.

Lemma step_skills (s : string) :
  plain io (Some s) = true →
  (feed_update io {| fsm_state := Some ResumeForm.skills; fsm_data := d |}
               (Message (Some s))).1
  = {| fsm_state := Some ResumeForm.projects;
       fsm_data := <["skills" := VList (parse_skills s)]> d |}.
Proof. intros H. by rewrite feed_plain. Qed.

Lemma step_projects (s : string) :
  plain io (Some s) = true →
  (feed_update io {| fsm_state := Some ResumeForm.projects; fsm_data := d |}
               (Message (Some s))).1
  = {| fsm_state := Some ResumeForm.template;
       fsm_data := <["projects" := VList (parse_projects s)]> d |}.
Proof.
  intros H. rewrite feed_plain by done.
  cbn [fsm_state]. unfold process_projects, parse_projects.
  by destruct (String.eqb (PyStr.lower s) "skip").
Qed.

Lemma step_template (template_id : string) :
  PyStr.count_char ":" template_id = 0 →
  (feed_update io {| fsm_state := Some ResumeForm.template; fsm_data := d |}
               (CallbackQuery ("template:" +:+ template_id))).1
  = {| fsm_state := Some ResumeForm.format;
       fsm_data := <["template" := VStr template_id]> d |}.
Proof.
  intros H. rewrite template_step.
  change (PyStr.startswith "template:" ("template:" +:+ template_id)) with true.
  cbn iota. cbn [fst].
  change ("template:" +:+ template_id) with ("template" +:+ String ":" template_id).
  by rewrite selected_after_prefix.
Qed.

End DialogueSteps.

(** X3: a dialogue started with /build, none of whose answers the command
    filters take for /start or /build (with or without a mention of the
    bot), reaches the Format step with the eight answers stored over
    whatever was there before: the three texts as sent, education and
    experience cut into lines, the skills cut at commas and trimmed, the
    projects cut into lines or empty for "skip", and the template
    identifier. *)
Theorem dialogue_collects (io : backend) (ctx : FSMContext)
    (name email phone : option string)
    (education experience skills projects template_id : string) :
  plain io name = true →
  plain io email = true →
  plain io phone = true →
  plain io (Some education) = true →
  plain io (Some experience) = true →
  plain io (Some skills) = true →
  plain io (Some projects) = true →
  PyStr.count_char ":" template_id = 0 →
  (feed_all io ctx
     (dialogue name email phone education experience skills projects template_id)).1
  = {| fsm_state := Some ResumeForm.format;
       fsm_data :=
         <["template" := VStr template_id]>
         (<["projects" := VList (parse_projects projects)]>
         (<["skills" := VList (parse_skills skills)]>
         (<["experience" := VList (PyStr.split "010" experience)]>
         (<["education" := VList (PyStr.split "010" education)]>
         (<["phone" := text_value phone]>
         (<["email" := text_value email]>
         (<["name" := text_value name]> (fsm_data ctx)))))))) |}.
Proof.
  intros Hn He Hp Hed Hex Hsk Hpr Ht.
  unfold dialogue.
  rewrite feed_all_cons, step_build.
  rewrite feed_all_cons, step_name by done.
  rewrite feed_all_cons, step_email by done.
  rewrite feed_all_cons, step_phone by done.
  rewrite feed_all_cons, step_education by done.
  rewrite feed_all_cons, step_experience by done.
  rewrite feed_all_cons, step_skills by done.
  rewrite feed_all_cons, step_projects by done.
  rewrite feed_all_cons, step_template by done.
  reflexivity.
Qed.

Lemma dialogue_collects_witness :
  (feed_all quiet idle
     (dialogue (Some "Ada Lovelace") (Some "ada@example.org") None
               "BS Computer Science, MIT, 2020" "Engineer, Babbage Ltd, 1842-1843"
               "Python, SQL" "Skip" "academic")).1
  = {| fsm_state := Some ResumeForm.format;
       fsm_data :=
         <["template" := VStr "academic"]>
         (<["projects" := VList (parse_projects "Skip")]>
         (<["skills" := VList (parse_skills "Python, SQL")]>
         (<["experience" := VList (PyStr.split "010" "Engineer, Babbage Ltd, 1842-1843")]>
         (<["education" := VList (PyStr.split "010" "BS Computer Science, MIT, 2020")]>
         (<["phone" := text_value None]>
         (<["email" := text_value (Some "ada@example.org")]>
         (<["name" := text_value (Some "Ada Lovelace")]> (fsm_data idle)))))))) |}.
Proof.
  apply (dialogue_collects quiet idle (Some "Ada Lovelace") (Some "ada@example.org") None
           "BS Computer Science, MIT, 2020" "Engineer, Babbage Ltd, 1842-1843"
           "Python, SQL" "Skip" "academic"); reflexivity.
Defined.


(** The command filter on mentions: the bot's own user name in any letter
    case makes a command, another bot's does not. *)
Example command_filter_demo :
  is_command quiet "build" (Some "/build@resume_builder_bot now") = true
  ∧ is_command quiet "build" (Some "/build@Resume_Builder_Bot") = true
  ∧ is_command quiet "build" (Some "/build@other_bot") = false
  ∧ is_command quiet "build" (Some "/Build") = false
  ∧ is_command quiet "build" (Some "please /build") = false
  ∧ plain quiet (Some "/build@resume_builder_bot") = false
  ∧ plain quiet (Some "/builder") = true
  ∧ (feed_update quiet {| fsm_state := Some ResumeForm.email; fsm_data := ∅ |}
       (Captioned "/build")).1
    = {| fsm_state := Some ResumeForm.name; fsm_data := ∅ |}.
Proof. repeat split; reflexivity. Qed.
(** ** Experience and project lines *)

Lemma join_splitn (sep : ascii) (n : nat) (s : string) :
  PyStr.join (String sep "") (PyStr.splitn sep n s) = s.
Proof.
  unfold PyStr.join. revert n. induction s as [|c s IH]; intros n; simpl; [done |].
  destruct (Ascii.eqb_spec c sep) as [-> | Hne].
  - destruct n as [|m]; [done |].
    destruct (splitn_cons sep m s) as (h & t & Hs).
    specialize (IH m). rewrite Hs in IH |- *. simpl in *. by rewrite IH.
  - destruct (splitn_cons sep n s) as (h & t & Hs).
    specialize (IH n). rewrite Hs in IH |- *.
    destruct t; simpl in *; by rewrite <- IH.
Qed.

(** The fields before the last cut have no separator; the field after it
    has all that remain. *)
Lemma splitn_field_count (sep : ascii) (n : nat) (s : string) (i : nat) :
  PyStr.count_char sep (nth i (PyStr.splitn sep n s) "")
  = if i <? Nat.min n (PyStr.count_char sep s) then 0
    else if i =? Nat.min n (PyStr.count_char sep s)
         then PyStr.count_char sep s - Nat.min n (PyStr.count_char sep s)
         else 0.
Proof.
  revert n i. induction s as [|c s IH]; intros n i.
  - simpl. rewrite Nat.min_0_r. destruct i as [|[|i]]; reflexivity.
  - cbn [PyStr.splitn PyStr.count_char].
    destruct (Ascii.eqb c sep) eqn:E.
    + destruct n as [|m].
      * destruct i as [|i]; cbn [nth Nat.min Nat.ltb Nat.leb Nat.eqb].
        -- cbn [PyStr.count_char]. rewrite E. lia.
        -- by destruct i.
      * destruct i as [|i]; cbn [nth]; [reflexivity |].
        rewrite IH. cbn [Nat.add Nat.min].
        change (S i <? S ?m) with (i <? m). change (S i =? S ?m) with (i =? m).
        done.
    + destruct (splitn_cons sep n s) as (h & t & Hs).
      specialize (IH n i). rewrite Hs in IH |- *. cbn [Nat.add].
      destruct i as [|i]; cbn [nth] in *; [| done].
      cbn [PyStr.count_char]. by rewrite E.
Qed.

Lemma lstrip_count_eq (a : ascii) (s : string) :
  PyStr.is_space a = false →
  PyStr.count_char a (PyStr.lstrip s) = PyStr.count_char a s.
Proof.
  intros Ha. induction s as [|x s IH]; simpl; [done |].
  destruct (PyStr.is_space x) eqn:Ex; [| done].
  destruct (Ascii.eqb_spec x a) as [-> | _]; [congruence | done].
Qed.

Lemma rstrip_count_eq (a : ascii) (s : string) :
  PyStr.is_space a = false →
  PyStr.count_char a (PyStr.rstrip s) = PyStr.count_char a s.
Proof.
  intros Ha. induction s as [|x s IH]; [done |].
  cbn [PyStr.rstrip PyStr.count_char].
  destruct (PyStr.rstrip s) as [|y r] eqn:Hr.
  - destruct (PyStr.is_space x) eqn:Ex.
    + destruct (Ascii.eqb_spec x a) as [-> | _]; [congruence |]. simpl in *. lia.
    + cbn [PyStr.count_char] in *. lia.
  - change (PyStr.count_char a (String x (String y r)))
      with ((if Ascii.eqb x a then 1 else 0) + PyStr.count_char a (String y r)).
    lia.
Qed.

(** [strip] removes white space only. *)
Lemma strip_count_eq (a : ascii) (s : string) :
  PyStr.is_space a = false →
  PyStr.count_char a (PyStr.strip s) = PyStr.count_char a s.
Proof.
  intros Ha. unfold PyStr.strip.
  by rewrite rstrip_count_eq, lstrip_count_eq.
Qed.

(** X4: an experience line yields an entry iff it has at least two commas
    (three fields).  Position, company and duration are the first three
    comma-separated segments, trimmed and free of commas; the description is
    everything after the third comma, trimmed, with all its commas; cutting
    loses nothing, the pieces joined by commas being the line. *)
Theorem experience_fields_spec (exp : string) :
  match experience_fields exp with
  | None => PyStr.count_char "," exp < 2
  | Some (position, company, duration, description) =>
      2 ≤ PyStr.count_char "," exp
      ∧ position = PyStr.strip (nth 0 (PyStr.splitn "," 3 exp) "")
      ∧ company = PyStr.strip (nth 1 (PyStr.splitn "," 3 exp) "")
      ∧ duration = PyStr.strip (nth 2 (PyStr.splitn "," 3 exp) "")
      ∧ description = (if PyStr.count_char "," exp =? 2 then ""
                       else PyStr.strip (nth 3 (PyStr.splitn "," 3 exp) ""))
      ∧ Forall (fun x => PyStr.trimmed x = true ∧ PyStr.count_char "," x = 0)
               [position; company; duration]
      ∧ PyStr.trimmed description = true
      ∧ PyStr.count_char "," description = PyStr.count_char "," exp - 3
  end
  ∧ length (PyStr.splitn "," 3 exp) ≤ 4
  ∧ PyStr.join "," (PyStr.splitn "," 3 exp) = exp.
Proof.
  assert (Hfield : ∀ i, PyStr.count_char "," (PyStr.strip (nth i (PyStr.splitn "," 3 exp) ""))
                        = if i <? Nat.min 3 (PyStr.count_char "," exp) then 0
                          else if i =? Nat.min 3 (PyStr.count_char "," exp)
                               then PyStr.count_char "," exp
                                    - Nat.min 3 (PyStr.count_char "," exp)
                               else 0).
  { intros i. rewrite strip_count_eq by reflexivity. apply splitn_field_count. }
  split_and!.
  - unfold experience_fields. rewrite splitn_length.
    pose proof (Hfield 0) as H0. pose proof (Hfield 1) as H1.
    pose proof (Hfield 2) as H2. pose proof (Hfield 3) as H3.
    destruct (PyStr.count_char "," exp) as [|[|[|n]]] eqn:Hc;
      cbn [Nat.min Nat.leb Nat.ltb Nat.eqb Nat.sub] in *.
    + lia.
    + lia.
    + split_and!; [lia | done | done | done | done | | done | done].
      repeat constructor; try apply strip_trimmed; done.
    + split_and!; [lia | done | done | done | done | | apply strip_trimmed |].
      * repeat constructor; try apply strip_trimmed; done.
      * rewrite H3. lia.
  - rewrite splitn_length. lia.
  - apply join_splitn.
Qed.

(** X5: a project line always yields an entry, blank lines included: the
    name is the text before the first comma, trimmed and free of commas, the
    description everything after it, trimmed, with all its commas; so the
    entries parsed are as many as the lines. *)
Theorem project_fields_spec (project : string) (lines : list string) :
  (∃ name description,
     project_fields project = Some (name, description)
     ∧ name = PyStr.strip (nth 0 (PyStr.splitn "," 1 project) "")
     ∧ description = (if PyStr.count_char "," project =? 0 then ""
                      else PyStr.strip (nth 1 (PyStr.splitn "," 1 project) ""))
     ∧ PyStr.trimmed name = true
     ∧ PyStr.trimmed description = true
     ∧ PyStr.count_char "," name = 0
     ∧ PyStr.count_char "," description = PyStr.count_char "," project - 1)
  ∧ PyStr.join "," (PyStr.splitn "," 1 project) = project
  ∧ length (omap project_fields lines) = length lines.
Proof.
  assert (Htotal : ∀ p, is_Some (project_fields p)).
  { intros p. unfold project_fields. rewrite splitn_length. by eexists. }
  split_and!.
  - unfold project_fields. rewrite splitn_length.
    pose proof (splitn_field_count "," 1 project 0) as H0.
    pose proof (splitn_field_count "," 1 project 1) as H1.
    rewrite <- (strip_count_eq "," (nth 0 _ _)) in H0 by reflexivity.
    rewrite <- (strip_count_eq "," (nth 1 _ _)) in H1 by reflexivity.
    destruct (PyStr.count_char "," project) as [|n] eqn:Hc;
      cbn [Nat.min Nat.leb Nat.ltb Nat.eqb Nat.sub] in *.
    + do 2 eexists. split_and!; [done | done | done | apply strip_trimmed | done | done | done].
    + do 2 eexists.
      split_and!; [done | done | done | apply strip_trimmed | apply strip_trimmed | done |].
      rewrite H1. lia.
  - apply join_splitn.
  - induction lines as [|p lines IH]; [done |].
    destruct (Htotal p) as [e He]. cbn [omap list_omap]. rewrite He. cbn [length].
    by f_equal.
Qed.

(** ** More on skill enhancement *)

(** At least [8 - |skills|] fall-back entries are absent from any list. *)
Lemma fallback_absent_length (skills : list string) :
  8 - length skills ≤ length (filter (fun x => x ∉ skills) common_skills).
Proof.
  pose proof (filter_app_complement (fun x => x ∉ skills) common_skills) as Hperm.
  apply Permutation_length in Hperm. rewrite length_app in Hperm.
  change (length common_skills) with 8 in Hperm.
  assert (Hin : length (filter (fun x : string => ¬ (x ∉ skills)) common_skills) ≤ length skills).
  { apply submseteq_length, NoDup_submseteq.
    - apply NoDup_filter, common_skills_nodup.
    - intros x [Hx _]%list_elem_of_filter.
      by destruct (decide (x ∈ skills)). }
  lia.
Qed.

(** X6: the enhanced list always has [max(|skills|, 8)] entries: exactly 8
    for an input of at most 8 skills, whatever it contains, and the input
    itself beyond that; enhancing an enhanced list changes nothing. *)
Theorem enhance_skills_fills (skills : list string) :
  length (enhance_skills skills) = Nat.max (length skills) 8
  ∧ enhance_skills (enhance_skills skills) = enhance_skills skills.
Proof.
  assert (Hlen : length (enhance_skills skills) = Nat.max (length skills) 8).
  { rewrite enhance_skills_closed, length_app, length_take.
    pose proof (fallback_absent_length skills). lia. }
  split; [done |].
  unfold enhance_skills at 1.
  destruct (Nat.ltb_spec (length (enhance_skills skills)) 8); [lia | done].
Qed.

(** ** More on job recommendations *)

Lemma startswith_app (p q s : string) :
  PyStr.startswith (p +:+ q) s = true → PyStr.startswith p s = true.
Proof.
  revert s. induction p as [|c p IH]; intros s; [done |].
  rewrite append_cons. simpl. destruct s as [|x s]; [done |].
  intros [-> H]%andb_true_iff. by rewrite (IH s H).
Qed.

Lemma contains_app (p q s : string) :
  PyStr.contains (p +:+ q) s = true → PyStr.contains p s = true.
Proof.
  induction s as [|x s IH]; cbn [PyStr.contains].
  - rewrite !orb_false_r. apply startswith_app.
  - intros [H | H]%orb_true_iff; apply orb_true_iff.
    + left. by eapply startswith_app.
    + right. by apply IH.
Qed.

Lemma recommended_jobs_lower (skills : list string) :
  recommended_jobs skills
  = foldl (fun acc skill_lower => scan_keys skill_lower acc) ∅ (PyStr.lower <$> skills).
Proof. unfold recommended_jobs. by rewrite foldl_fmap. Qed.

(** Only the keyword "javascript" maps to "Frontend Developer". *)
Lemma frontend_only_javascript :
  Forall (fun kv : string * list string =>
            "Frontend Developer" ∈ kv.2 → kv.1 = "java" +:+ "script")
         skill_to_jobs.
Proof.
  repeat constructor; cbn [fst snd]; intros H;
    first [reflexivity | exfalso; revert H; apply (bool_decide_unpack _); by vm_compute].
Qed.

Lemma frontend_not_default : "Frontend Developer" ∉ default_jobs.
Proof. apply (bool_decide_unpack _). by vm_compute. Qed.

Lemma java_key : ("java", ["Java Developer"; "Software Engineer"; "Android Developer";
                           "Backend Developer"]) ∈ skill_to_jobs.
Proof. apply (bool_decide_unpack _). by vm_compute. Qed.

(** X7: the recommendations are never empty; they depend on the skills
    only up to letter case; and since keywords are matched as substrings, a
    skill that earns "Frontend Developer" (it contains "javascript") also
    earns "Java Developer". *)
Theorem get_job_recommendations_matching (skills skills' : list string) :
  get_job_recommendations skills ≠ []
  ∧ (PyStr.lower <$> skills = PyStr.lower <$> skills' →
     get_job_recommendations skills = get_job_recommendations skills')
  ∧ ("Frontend Developer" ∈ get_job_recommendations skills →
     "Java Developer" ∈ get_job_recommendations skills).
Proof.
  split_and!.
  - unfold get_job_recommendations. case_bool_decide as He; [done |].
    intros Hnil. apply He. apply leibniz_equiv. by apply elements_empty_inv.
  - intros Heq. unfold get_job_recommendations.
    by rewrite !recommended_jobs_lower, Heq.
  - unfold get_job_recommendations. case_bool_decide as He.
    { intros H. by apply frontend_not_default in H. }
    rewrite !elem_of_elements, !recommended_jobs_elem.
    intros (skill & kv & Hs & Hkv & Hc & Hj).
    pose proof frontend_only_javascript as Hfront. rewrite Forall_forall in Hfront.
    rewrite (Hfront kv Hkv Hj) in Hc. apply contains_app in Hc.
    eexists skill, _. split_and!; [done | apply java_key | done |].
    cbn [snd]. by left.
Qed.

(** ** Updates the dialogue does not expect *)

Lemma partition_at_none (a : string) :
  PyStr.count_char "@" a = 0 → partition_at a = (a, "").
Proof.
  induction a as [|c a IH]; [done |]. cbn [PyStr.count_char partition_at].
  destruct (Ascii.eqb c "@"); [done |]. intros H. by rewrite IH.
Qed.

Lemma partition_at_first (a b : string) :
  PyStr.count_char "@" a = 0 → partition_at (a +:+ String "@" b) = (a, b).
Proof.
  induction a as [|c a IH]; [done |].
  rewrite append_cons. cbn [PyStr.count_char partition_at].
  destruct (Ascii.eqb c "@"); [done |]. intros H. by rewrite IH.
Qed.

Lemma partition_at_join (s : string) :
  s = (partition_at s).1
  ∨ s = (partition_at s).1 +:+ String "@" (partition_at s).2.
Proof.
  induction s as [|c s IH]; [by left |]. cbn [partition_at].
  destruct (Ascii.eqb_spec c "@") as [-> | Hne]; [by right |].
  cbn [fst snd]. rewrite append_cons. destruct IH as [IH | IH]; [left | right]; congruence.
Qed.

(** The command filter, read off the first word: [/cmd], or [/cmd@mention]
    with a mention the bot takes for itself. *)
Lemma is_command_spec (io : backend) (cmd s : string) :
  PyStr.count_char "@" cmd = 0 →
  is_command io cmd (Some s) = true
  ↔ first_word s = String "/" cmd
    ∨ ∃ mention, first_word s = String "/" (cmd +:+ String "@" mention)
                 ∧ mention_matches io mention = true.
Proof.
  intros Hcmd. unfold is_command.
  destruct (first_word s) as [|c rest]; [split; [done | by intros [? | (? & ? & ?)]] |].
  split.
  - intros [[Hc Hm]%andb_true_iff He]%andb_true_iff.
    apply Ascii.eqb_eq in Hc as ->. apply String.eqb_eq in He.
    destruct (partition_at_join rest) as [Hr | Hr]; rewrite He in Hr.
    + left. by rewrite Hr.
    + right. exists (partition_at rest).2. by rewrite Hr at 1.
  - intros [[= -> ->] | (mention & [= -> ->] & Hm)].
    + rewrite partition_at_none by done. cbn [fst snd].
      by rewrite String.eqb_refl.
    + rewrite partition_at_first by done. cbn [fst snd].
      by rewrite Hm, String.eqb_refl.
Qed.

Lemma is_command_one (io : backend) (text : option string) :
  is_command io "build" text = true → is_command io "start" text = false.
Proof.
  unfold is_command. destruct text as [s |]; [| done].
  destruct (first_word s) as [|c rest]; [done |].
  intros [_ He%String.eqb_eq]%andb_true_iff. rewrite He.
  by rewrite andb_false_r.
Qed.

(** X8: commands win over every step: a message that the /start filter
    takes (first word /start, or /start@mention with the bot's own user
    name, in the text or, without text, in the caption) only sends the
    welcome; one that the /build filter takes restarts at the Name step and
    keeps the stored data.  A message that neither filter takes is dropped
    outside a dialogue and at the two selection steps; a message without
    text, with or without a caption, is dropped at the four steps that cut
    their text (the handler raises before it stores anything).  A callback
    has an effect only when its prefix names the current step. *)
Theorem unexpected_updates (io : backend) (ctx : FSMContext)
    (s caption : string) (text : option string) (cb : string) :
  (is_command io "start" (Some s) = true
   ↔ first_word s = "/start"
     ∨ ∃ mention, first_word s = "/start@" +:+ mention
                  ∧ mention_matches io mention = true)
  ∧ (is_command io "build" (Some s) = true
     ↔ first_word s = "/build"
       ∨ ∃ mention, first_word s = "/build@" +:+ mention
                    ∧ mention_matches io mention = true)
  ∧ (is_command io "start" (Some s) = true →
     feed_update io ctx (Message (Some s)) = (ctx, (cmd_start ctx).2)
     ∧ feed_update io ctx (Captioned s) = (ctx, (cmd_start ctx).2))
  ∧ (is_command io "build" (Some s) = true →
     (feed_update io ctx (Message (Some s))).1
     = {| fsm_state := Some ResumeForm.name; fsm_data := fsm_data ctx |}
     ∧ (feed_update io ctx (Captioned s)).1
       = {| fsm_state := Some ResumeForm.name; fsm_data := fsm_data ctx |})
  ∧ (plain io text = true →
     fsm_state ctx ∈ [None; Some ResumeForm.template; Some ResumeForm.format] →
     feed_update io ctx (Message text) = (ctx, []))
  ∧ (plain io (Some caption) = true →
     feed_update io ctx (Captioned caption) = feed_update io ctx (Message None))
  ∧ (fsm_state ctx ∈ [Some ResumeForm.education; Some ResumeForm.experience;
                      Some ResumeForm.skills; Some ResumeForm.projects] →
     feed_update io ctx (Message None) = (ctx, []))
  ∧ (feed_update io ctx (CallbackQuery cb) ≠ (ctx, []) →
     (PyStr.startswith "template:" cb = true ∧ fsm_state ctx = Some ResumeForm.template)
     ∨ (PyStr.startswith "format:" cb = true ∧ fsm_state ctx = Some ResumeForm.format)).
Proof.
  split_and!.
  - by apply (is_command_spec io "start" s).
  - by apply (is_command_spec io "build" s).
  - intros H. unfold feed_update, feed_message. by rewrite H.
  - intros H. unfold feed_update, feed_message.
    by rewrite (is_command_one io _ H), H.
  - intros Hp Hs. rewrite feed_plain by done.
    repeat (apply elem_of_cons in Hs as [-> | Hs]); [done | done | done |].
    by apply not_elem_of_nil in Hs.
  - unfold plain, feed_update, feed_message. intros [H1 H2]%andb_true_iff.
    apply negb_true_iff in H1, H2. by rewrite H1, H2.
  - intros Hs. unfold feed_update, feed_message. cbn [is_command].
    repeat (apply elem_of_cons in Hs as [-> | Hs]); [done | done | done | done |].
    by apply not_elem_of_nil in Hs.
  - unfold feed_update. intros H.
    destruct (PyStr.startswith "template:" cb) eqn:Et; cbn [andb] in H.
    + case_bool_decide as Hs; [by left |].
      destruct (PyStr.startswith "format:" cb) eqn:Ef; cbn [andb] in H; [| done].
      case_bool_decide as Hs'; [by right | done].
    + destruct (PyStr.startswith "format:" cb) eqn:Ef; cbn [andb] in H; [| done].
      case_bool_decide as Hs'; [by right | done].
Qed.


(** ** The template *)

Section Fonts.

Variable bf : string.

Lemma pdf_experience_fonts (items : list string) :
  Forall (uses_font bf) (concat (pdf_experience bf <$> items)).
Proof.
  apply Forall_concat, Forall_fmap, Forall_forall. intros x _. cbn.
  unfold pdf_experience. destruct (experience_fields x) as [[[[? ?] ?] ?]|];
    repeat constructor.
Qed.

Lemma pdf_education_fonts (items : list string) :
  Forall (uses_font bf) (concat (pdf_education bf <$> items)).
Proof.
  apply Forall_concat, Forall_fmap, Forall_forall. intros x _. cbn.
  unfold pdf_education. destruct (education_fields x) as [[[? ?] ?]|];
    repeat constructor.
Qed.

Lemma pdf_project_fonts (items : list string) :
  Forall (uses_font bf) (concat (pdf_project bf <$> items)).
Proof.
  apply Forall_concat, Forall_fmap, Forall_forall. intros x _. cbn.
  unfold pdf_project. destruct (project_fields x) as [[? ?]|]; repeat constructor.
Qed.

Lemma pdf_heading_fonts (title : string) :
  Forall (uses_font bf) (pdf_heading bf bf title).
Proof. repeat constructor. Qed.

End Fonts.

Lemma pdf_document_fonts (r : SessionRecord) :
  ∃ calls,
    pdf_document (completed r) = inr (file_name r ".pdf", calls)
    ∧ Forall (uses_font (template_font (VStr (templateId r)))) calls.
Proof.
  unfold pdf_document.
  autorewrite with completed.
  unfold file_stem, text_arg, iter, Py.join. autorewrite with completed.
  destruct (truthy (VList (r_projects r)));
    autorewrite with completed; (eexists; split; [reflexivity |]);
    rewrite !Forall_app;
    split_and!;
    first [apply pdf_heading_fonts | apply pdf_experience_fonts
          | apply pdf_education_fonts | apply pdf_project_fonts
          | repeat constructor].
Qed.

(** X9: the template identifier only chooses the font family of the PDF
    (Helvetica for professional and creative, Times for academic, Courier for
    anything else): every font the PDF sets is that family, the text of the
    PDF does not depend on the template, and the DOCX file is built by the
    same calls whatever the template. *)
Theorem template_sets_pdf_font (r : SessionRecord) (t : string) :
  docx_document (completed (with_template t r)) = docx_document (completed r)
  ∧ (∃ c c',
       pdf_document (completed r) = inr (file_name r ".pdf", c)
       ∧ pdf_document (completed (with_template t r)) = inr (file_name r ".pdf", c')
       ∧ pdf_text c' = pdf_text c
       ∧ Forall (uses_font (template_font (VStr t))) c')
  ∧ template_font (VStr t)
    = (if bool_decide (t ∈ ["professional"; "creative"]) then "Helvetica"
       else if bool_decide (t = "academic") then "Times" else "Courier").
Proof.
  split_and!.
  - rewrite !docx_document_layout. reflexivity.
  - destruct (pdf_document_completed r) as (c & Hc & Htext).
    destruct (pdf_document_completed (with_template t r)) as (c' & Hc' & Htext').
    destruct (pdf_document_fonts (with_template t r)) as (c'' & Hc'' & Hfonts).
    rewrite Hc' in Hc''. injection Hc'' as <-.
    exists c, c'. split_and!; [done | done | | done].
    by rewrite Htext, Htext'.
  - unfold template_font.
    destruct (decide (t = "professional")) as [-> | H1]; [done |].
    destruct (decide (t = "creative")) as [-> | H2]; [done |].
    rewrite !(bool_decide_eq_false_2 (VStr t = _)) by congruence.
    rewrite (bool_decide_eq_false_2 (t ∈ _)).
    + destruct (decide (t = "academic")) as [-> | H3]; [done |].
      by rewrite !bool_decide_eq_false_2 by congruence.
    + intros [-> | [-> | H]%elem_of_cons]%elem_of_cons; [done | done |].
      by apply not_elem_of_nil in H.
Qed.

(** ** The file name *)

Lemma count_char_app (a : ascii) (s t : string) :
  PyStr.count_char a (s +:+ t) = PyStr.count_char a s + PyStr.count_char a t.
Proof.
  induction s as [|c s IH]; [done |].
  rewrite append_cons. cbn [PyStr.count_char]. rewrite IH. lia.
Qed.

Lemma map_chars_count (f : ascii → ascii) (a : ascii) (s : string) :
  (∀ c, Ascii.eqb (f c) a = Ascii.eqb c a) →
  PyStr.count_char a (PyStr.map_chars f s) = PyStr.count_char a s.
Proof.
  intros Hf. induction s as [|c s IH]; [done |].
  cbn. by rewrite Hf, IH.
Qed.

Lemma map_chars_never (f : ascii → ascii) (a : ascii) (s : string) :
  (∀ c, Ascii.eqb (f c) a = false) →
  PyStr.count_char a (PyStr.map_chars f s) = 0.
Proof.
  intros Hf. induction s as [|c s IH]; [done |].
  cbn. by rewrite Hf, IH.
Qed.

Lemma map_chars_idemp (f : ascii → ascii) (s : string) :
  (∀ c, f (f c) = f c) →
  PyStr.map_chars f (PyStr.map_chars f s) = PyStr.map_chars f s.
Proof.
  intros Hf. induction s as [|c s IH]; [done |].
  cbn. by rewrite Hf, IH.
Qed.

Ltac each_char c := destruct c as [[] [] [] [] [] [] [] []]; reflexivity.

Lemma lower_char_space (c : ascii) :
  Ascii.eqb (PyStr.lower_char c) " " = Ascii.eqb c " ".
Proof. each_char c. Qed.

Lemma lower_char_slash (c : ascii) :
  Ascii.eqb (PyStr.lower_char c) "/" = Ascii.eqb c "/".
Proof. each_char c. Qed.

Lemma lower_char_idemp (c : ascii) :
  PyStr.lower_char (PyStr.lower_char c) = PyStr.lower_char c.
Proof. each_char c. Qed.

Lemma underscore_no_space (c : ascii) :
  Ascii.eqb (if Ascii.eqb c " " then "_" else c)%char " " = false.
Proof. each_char c. Qed.

Lemma underscore_slash (c : ascii) :
  Ascii.eqb (if Ascii.eqb c " " then "_" else c)%char "/" = Ascii.eqb c "/".
Proof. each_char c. Qed.

(** X10: the file name is "resume_", the name and the extension; the name
    goes in lower case and without spaces, but otherwise unfiltered: every
    "/" of the name is still in it. *)
Theorem file_name_shape (r : SessionRecord) (extension : string) :
  PyStr.count_char " " (file_name r extension) = PyStr.count_char " " extension
  ∧ PyStr.count_char "/" (file_name r extension)
    = PyStr.count_char "/" (fullName r) + PyStr.count_char "/" extension
  ∧ PyStr.lower (file_name r ".pdf") = file_name r ".pdf"
  ∧ PyStr.lower (file_name r ".docx") = file_name r ".docx".
Proof.
  unfold file_name, PyStr.lower, PyStr.replace.
  assert (Hlow : ∀ ext, PyStr.map_chars PyStr.lower_char ext = ext →
            PyStr.map_chars PyStr.lower_char
              ("resume_" +:+ PyStr.map_chars PyStr.lower_char
                 (PyStr.map_chars (fun c => if Ascii.eqb c " " then "_" else c)%char
                    (fullName r)) +:+ ext)
            = "resume_" +:+ PyStr.map_chars PyStr.lower_char
                 (PyStr.map_chars (fun c => if Ascii.eqb c " " then "_" else c)%char
                    (fullName r)) +:+ ext).
  { intros ext Hext.
    assert (Happ : ∀ a b, PyStr.map_chars PyStr.lower_char (a +:+ b)
                          = PyStr.map_chars PyStr.lower_char a
                            +:+ PyStr.map_chars PyStr.lower_char b).
    { intros a b. induction a as [|c a IH]; [done |].
      rewrite append_cons. cbn. by rewrite IH. }
    rewrite !Happ, Hext.
    by rewrite (map_chars_idemp _ _ lower_char_idemp). }
  split_and!.
  - rewrite !count_char_app.
    rewrite (map_chars_count _ _ _ lower_char_space).
    rewrite (map_chars_never _ _ _ underscore_no_space). reflexivity.
  - rewrite !count_char_app.
    rewrite (map_chars_count _ _ _ lower_char_slash).
    rewrite (map_chars_count _ _ _ underscore_slash). reflexivity.
  - by apply Hlow.
  - by apply Hlow.
Qed.

(** ** The job message *)

Lemma foldl_append (f : string → string) (acc : string) (l : list string) :
  foldl (fun msg x => msg +:+ f x) acc l = acc +:+ concat_text (f <$> l).
Proof.
  revert acc. induction l as [|x l IH]; intros acc; cbn [foldl fmap list_fmap concat_text foldr].
  - by rewrite append_nil_r.
  - rewrite IH. by rewrite append_assoc.
Qed.

(** X11: the job message is the heading followed by one bullet line for
    each of the first five jobs, in order; jobs after the fifth are not
    shown. *)
Theorem job_message_lines (jobs more : list string) :
  job_message jobs
  = ("💼 Based on your skills, here are some job recommendations:"
     +:+ PyStr.nl +:+ PyStr.nl)
    +:+ concat_text (job_line <$> take 5 jobs)
  ∧ length (take 5 jobs) = Nat.min 5 (length jobs)
  ∧ (5 ≤ length jobs → job_message (jobs ++ more) = job_message jobs).
Proof.
  split_and!.
  - unfold job_message. apply foldl_append.
  - apply length_take.
  - intros H. unfold job_message. by rewrite take_app_le.
Qed.

(** ** The layout of both documents *)

(** X12: for every completed record the PDF is, read as text, the layout
    of the specification: the name over the contact line, the summary, one
    block per parsed experience line and per parsed education line, the
    enhanced skills joined by ", ", and the projects when there are any,
    under upper-case titles.  The DOCX renderer raises [ValueError] when a
    text of that layout has a control character python-docx refuses;
    otherwise its file is the same layout under the titles as written.
    Both file names derive from the name. *)
Theorem renderers_follow_layout (r : SessionRecord) :
  ∃ c1 c2,
    pdf_document (completed r) = inr (file_name r ".pdf", c1)
    ∧ docx_document (completed r)
      = (if xml_sections (resume_sections id r)
         then inr (file_name r ".docx", c2)
         else inl xml_refusal)
    ∧ pdf_text c1 = resume_sections PyStr.upper r
    ∧ docx_text c2 = resume_sections id r
    ∧ length (pdf_text c1) = (if bool_decide (r_projects r = []) then 5 else 6).
Proof.
  destruct (pdf_document_completed r) as (c1 & H1 & Ht1).
  destruct (docx_document_completed r) as (c2 & H2 & Ht2).
  exists c1, c2. split_and!; [done | done | done | done |].
  rewrite Ht1. unfold resume_sections.
  by destruct (r_projects r).
Qed.

(** X13: with at least one project line the PDF, and the DOCX file
    whenever python-docx accepts the texts of the document, end with a
    Projects section that has one block for every line, none dropped: the
    name, a line break, the description, a line break. *)
Theorem projects_rendered (r : SessionRecord) :
  r_projects r ≠ [] →
  ∃ c1 c2,
    pdf_document (completed r) = inr (file_name r ".pdf", c1)
    ∧ docx_document (completed r)
      = (if xml_sections (resume_sections id r)
         then inr (file_name r ".docx", c2)
         else inl xml_refusal)
    ∧ last (pdf_text c1)
      = Some ("PROJECTS", concat_text (project_text <$> omap project_fields (r_projects r)))
    ∧ last (docx_text c2)
      = Some ("Projects", concat_text (project_text <$> omap project_fields (r_projects r)))
    ∧ length (omap project_fields (r_projects r)) = length (r_projects r).
Proof.
  intros Hp.
  destruct (pdf_document_completed r) as (c1 & H1 & Ht1).
  destruct (docx_document_completed r) as (c2 & H2 & Ht2).
  exists c1, c2. rewrite Ht1, Ht2. unfold resume_sections.
  split_and!; [done | done | | |].
  - by destruct (r_projects r).
  - by destruct (r_projects r).
  - clear. induction (r_projects r) as [|p l IH]; [done |].
    cbn [omap list_omap]. unfold project_fields at 1. rewrite splitn_length.
    cbn [Nat.leb length]. by rewrite IH.
Qed.

Lemma projects_rendered_witness :
  ∃ c1 c2,
    pdf_document (completed ada_with_projects)
    = inr (file_name ada_with_projects ".pdf", c1)
    ∧ docx_document (completed ada_with_projects)
      = (if xml_sections (resume_sections id ada_with_projects)
         then inr (file_name ada_with_projects ".docx", c2)
         else inl xml_refusal)
    ∧ last (pdf_text c1)
      = Some ("PROJECTS",
              concat_text (project_text
                             <$> omap project_fields (r_projects ada_with_projects)))
    ∧ last (docx_text c2)
      = Some ("Projects",
              concat_text (project_text
                             <$> omap project_fields (r_projects ada_with_projects)))
    ∧ length (omap project_fields (r_projects ada_with_projects))
      = length (r_projects ada_with_projects).
Proof. apply (projects_rendered ada_with_projects). discriminate. Defined.

(** ** Skills, stored and typed again *)

Lemma split_join (sep : ascii) (l : list string) :
  l ≠ [] →
  Forall (fun x => PyStr.count_char sep x = 0) l →
  PyStr.split sep (PyStr.join (String sep "") l) = l.
Proof.
  unfold PyStr.join. induction l as [|x l IH]; [done |]. intros _ Hall.
  apply Forall_cons in Hall as [Hx Hl].
  destruct l as [|y l].
  - cbn. by apply split_single.
  - change (String.concat (String sep "") (x :: y :: l))
      with (x +:+ String sep (String.concat (String sep "") (y :: l))).
    rewrite split_prefix by done. f_equal. by apply IH.
Qed.

Lemma parse_skills_fields (s : string) :
  parse_skills s ≠ []
  ∧ Forall (fun x => PyStr.count_char "," x = 0) (parse_skills s)
  ∧ Forall (fun x => PyStr.strip x = x) (parse_skills s).
Proof.
  unfold parse_skills. split_and!.
  - destruct (split_cons "," s) as (h & t & ->). done.
  - apply Forall_fmap, Forall_forall. intros x Hx. cbn.
    pose proof (split_no_sep "," s) as Hall. rewrite Forall_forall in Hall.
    pose proof (strip_count "," x). specialize (Hall x Hx). cbn in Hall. lia.
  - apply Forall_fmap, Forall_forall. intros x _. cbn. apply strip_idemp.
Qed.

(** X14: the stored skills survive a round trip: joined by commas and sent
    again as the skills answer they are stored as the same list; in
    particular the list is never empty. *)
Theorem parse_skills_round_trip (s : string) :
  parse_skills s ≠ []
  ∧ parse_skills (PyStr.join "," (parse_skills s)) = parse_skills s.
Proof.
  destruct (parse_skills_fields s) as (Hne & Hcomma & Hstrip).
  split; [done |].
  unfold parse_skills at 1. rewrite split_join by done.
  apply list_eq. intros i. rewrite list_lookup_fmap.
  destruct (parse_skills s !! i) as [x|] eqn:Hx; [| done].
  cbn. f_equal. rewrite Forall_forall in Hstrip.
  apply Hstrip. by eapply list_elem_of_lookup_2.
Qed.

